(** * Offer optimizer: objective evaluator and offer selection

    A shallow embedding of [optimizer_api.py] (class [OfferOptimizer] and the
    request/response models) together with the properties stated about it.

    Numeric model.  Python [float] values that come from a validated request
    (prices, volumes, rates, probabilities, COPCAR) and the prices explored by
    the solver are modelled as real numbers; rounding, overflow and NaN are
    not represented.  Objective values can be [float('-inf')] (and, negated,
    [float('inf')]), so they live in the extended reals [xfloat].  Python's
    [/] raises [ZeroDivisionError] on a zero divisor; this is kept explicit
    in a small exception monad.

    External collaborators.  [numpy.exp] is the real exponential.
    [scipy.optimize.minimize] is not part of the repository: it is a
    parameter of the development, and the few results that depend on what a
    bounded solver promises name that promise as an explicit hypothesis.

    State.  The functions below take the optimizer object as an argument.
    Module [Shared] embeds the same methods as they run in the serving
    process, where the module-level optimizer object and the logger's
    records are explicit state threaded through every call.

    The request generators of [test_optimizer_api.py] are embedded as well;
    the state of the [random] module is an explicit stream of draws. *)

From Stdlib Require Import Reals Lra Lia List String Bool ZArith Permutation DecimalString
  FunctionalExtensionality.
Import ListNotations.

Local Open Scope R_scope.

(** ** Exceptions *)

Inductive exn : Type :=
| ZeroDivisionError
| ValueError (msg : string)
| AttributeError (msg : string)
| HTTPException (status_code : Z) (detail : string).

Inductive res (A : Type) : Type :=
| Ok (a : A)
| Raise (e : exn).

Arguments Ok {A} a.
Arguments Raise {A} e.

Definition ret {A : Type} (a : A) : res A := Ok a.

Definition bind {A B : Type} (m : res A) (f : A -> res B) : res B :=
  match m with
  | Ok a => f a
  | Raise e => Raise e
  end.

Notation "x <- m ;; k" := (bind m (fun x => k))
  (at level 61, m at next level, right associativity).

(** [str(e)] for the exceptions that can reach the handler. *)
Definition str_exn (e : exn) : string :=
  match e with
  | ZeroDivisionError => "float division by zero"
  | ValueError msg => msg
  | AttributeError msg => msg
  | HTTPException _ detail => detail
  end.

(** ** Floats *)

(** Objective values: a real, or one of the two infinities. *)
Inductive xfloat : Type :=
| NegInf
| Fin (r : R)
| PosInf.

(** Unary minus on objective values. *)
Definition xneg (v : xfloat) : xfloat :=
  match v with
  | NegInf => PosInf
  | Fin r => Fin (- r)
  | PosInf => NegInf
  end.

(** [a > b] on objective values. *)
Definition xgtb (a b : xfloat) : bool :=
  match a, b with
  | NegInf, _ => false
  | Fin _, NegInf => true
  | Fin x, Fin y => if Rgt_dec x y then true else false
  | Fin _, PosInf => false
  | PosInf, PosInf => false
  | PosInf, _ => true
  end.

(** Python [a / b] on floats. *)
Definition fdiv (a b : R) : res R :=
  if Req_dec_T b 0 then Raise ZeroDivisionError else ret (a / b).

(** Python [max(a, b)]: the first argument unless the second is greater. *)
Definition py_max (a b : R) : R := if Rgt_dec b a then b else a.

(** Python [min(a, b)]: the first argument unless the second is smaller. *)
Definition py_min (a b : R) : R := if Rlt_dec b a then b else a.

(** ** Data model *)

Inductive ModelCategory : Type := RETENTION | GROWTH | ACQUISITION | OTHER.

Definition category_eqb (a b : ModelCategory) : bool :=
  match a, b with
  | RETENTION, RETENTION | GROWTH, GROWTH
  | ACQUISITION, ACQUISITION | OTHER, OTHER => true
  | _, _ => false
  end.

Record Offer : Type := {
  offer_name : string;
  price : R;
  volume : R;
  conversion_rate : R
}.

Record ModelInput : Type := {
  model_name : string;
  model_probability : R;
  model_category : ModelCategory;
  available_offers : list Offer
}.

Record OptimizationRequest : Type := {
  customer_id : string;
  copcar : R;
  models : list ModelInput
}.

(** The response model; its fields carry the prefix [resp_] because several
    of them share a name with a request field. *)
Record OptimizationResponse : Type := {
  resp_customer_id : string;
  resp_copcar : R;
  resp_opt_profit : xfloat;
  resp_expected_profit : R;
  resp_model_name : string;
  resp_offer_name : string;
  resp_offer_price : R;
  resp_actual_offer_price : R;
  resp_offer_volume : R
}.

(** The [Field(...)] constraints enforced at the boundary. *)
Definition valid_offer (o : Offer) : Prop :=
  price o > 0 /\ volume o > 0 /\ conversion_rate o > 0 /\ conversion_rate o <= 1.

Definition valid_model (m : ModelInput) : Prop :=
  model_probability m >= 0 /\ model_probability m <= 1 /\
  Forall valid_offer (available_offers m).

Definition valid_request (req : OptimizationRequest) : Prop :=
  copcar req > 0 /\ Forall valid_model (models req).

(** ** The optimizer object *)

Record Weights : Type := {
  w_profit : R;
  w_retention : R;
  w_efficiency : R;
  w_probability : R
}.

Record OfferOptimizer : Type := {
  k : R;
  weights : Weights
}.

(** [OfferOptimizer.__init__] *)
Definition OfferOptimizer_init : OfferOptimizer :=
  {| k := 5.0;
     weights := {| w_profit := 1.0;
                   w_retention := 1.5;
                   w_efficiency := 0.3;
                   w_probability := 0.5 |} |}.

(** The module-level instance [optimizer = OfferOptimizer()]. *)
Definition optimizer : OfferOptimizer := OfferOptimizer_init.

(** ** Objective evaluator *)

Definition sigmoid (x : R) : res R := fdiv 1 (1 + exp (- x)).

Definition calculate_retention_score
    (self : OfferOptimizer) (price copcar churn_prob : R) : res R :=
  q <- fdiv price copcar ;;
  let dilution_rate := 1 - q in
  s <- sigmoid (k self * dilution_rate) ;;
  ret ((1 - churn_prob) * s).

Definition evaluate_offer
    (self : OfferOptimizer) (price : R) (offer : Offer) (model : ModelInput)
    (copcar : R) : res xfloat :=
  if category_eqb (model_category model) RETENTION then
    if Rge_dec price copcar then ret NegInf
    else
      retention_score <-
        calculate_retention_score self price copcar (1 - model_probability model) ;;
      q <- fdiv price copcar ;;
      let dilution_rate := 1 - q in
      ret (Fin (w_profit (weights self) * (copcar - price) * conversion_rate offer +
                w_retention (weights self) * retention_score * copcar +
                w_efficiency (weights self) * (conversion_rate offer * dilution_rate) +
                w_probability (weights self) * model_probability model))
  else
    if Rge_dec price copcar then ret NegInf
    else
      e <- fdiv (conversion_rate offer * copcar) (py_max price 0.01) ;;
      ret (Fin (w_profit (weights self) * (copcar - price) * conversion_rate offer +
                w_efficiency (weights self) * e +
                w_probability (weights self) * model_probability model)).

(** ** Offer selection *)

(** What [scipy.optimize.minimize] hands back: the fields of
    [OptimizeResult] that the caller reads ([result.x[0]] is [x]). *)
Record OptimizeResult : Type := {
  success : bool;
  x : R;
  fun_ : xfloat
}.

(** The type of a bounded one-dimensional minimizer: objective, initial
    guess [x0] and the pair of bounds.  The objective is Python code and may
    raise; an exception leaves [minimize] as it would leave any call. *)
Definition solver : Type := (R -> res xfloat) -> R -> R * R -> res OptimizeResult.

(** The loop variables [best_value], [best_model], [best_offer] and
    [best_price]; [None] is Python's [None]. *)
Record Best : Type := {
  best_value : xfloat;
  best_model : option ModelInput;
  best_offer : option Offer;
  best_price : option R
}.

Definition Best_init : Best :=
  {| best_value := NegInf; best_model := None; best_offer := None; best_price := None |}.

(** [for a in l: body], threading the loop variables and stopping at the
    first exception. *)
Fixpoint for_each {A S : Type} (body : S -> A -> res S) (l : list A) (s : S) : res S :=
  match l with
  | [] => ret s
  | a :: l' => s' <- body s a ;; for_each body l' s'
  end.

(** The guard of the [continue] statement. *)
Definition skipped (request : OptimizationRequest) (model : ModelInput) (offer : Offer) : bool :=
  category_eqb (model_category model) RETENTION &&
  (if Rge_dec (price offer) (copcar request) then true else false).

(** The tuple [price_bounds]. *)
Definition price_bounds (request : OptimizationRequest) (model : ModelInput) (offer : Offer)
  : R * R :=
  if category_eqb (model_category model) RETENTION then
    (py_min (copcar request * 0.3) (price offer * 0.8),
     py_min (copcar request * 0.9) (price offer))
  else
    (py_min (copcar request * 0.5) (price offer * 0.8),
     py_min (copcar request * 0.95) (price offer)).

Section Selection.

Variable minimize : solver.

(** The [minimize(lambda p: -self.evaluate_offer(...), x0=..., bounds=...)]
    call of one candidate. *)
Definition optimize_price (self : OfferOptimizer) (request : OptimizationRequest)
    (model : ModelInput) (offer : Offer) : res OptimizeResult :=
  let bounds := price_bounds request model offer in
  let initial_price := (fst bounds + snd bounds) / 2 in
  minimize
    (fun p => v <- evaluate_offer self p offer model (copcar request) ;; ret (xneg v))
    initial_price bounds.

(** Body of the inner loop. *)
Definition consider (self : OfferOptimizer) (request : OptimizationRequest)
    (model : ModelInput) (acc : Best) (offer : Offer) : res Best :=
  if skipped request model offer then ret acc
  else
    result <- optimize_price self request model offer ;;
    if success result then
      let value := xneg (fun_ result) in
      if xgtb value (best_value acc) then
        ret {| best_value := value;
               best_model := Some model;
               best_offer := Some offer;
               best_price := Some (x result) |}
      else ret acc
    else ret acc.

(** The two nested loops. *)
Definition select_best (self : OfferOptimizer) (request : OptimizationRequest) : res Best :=
  for_each
    (fun acc model => for_each (consider self request model) (available_offers model) acc)
    (models request) Best_init.

(** The statements inside [try:]. *)
Definition optimize_offers_body (self : OfferOptimizer) (request : OptimizationRequest)
  : res OptimizationResponse :=
  acc <- select_best self request ;;
  match best_offer acc with
  | None => Raise (ValueError "No suitable offer found")
  | Some bo =>
      let expected_profit := copcar request - price bo in
      match best_model acc, best_price acc with
      | Some bm, Some bp =>
          ret {| resp_customer_id := customer_id request;
                 resp_copcar := copcar request;
                 resp_opt_profit := best_value acc;
                 resp_expected_profit := expected_profit;
                 resp_model_name := model_name bm;
                 resp_offer_name := offer_name bo;
                 resp_offer_price := bp;
                 resp_actual_offer_price := price bo;
                 resp_offer_volume := volume bo |}
      | None, _ => Raise (AttributeError "'NoneType' object has no attribute 'model_name'")
      | Some _, None => Raise (ValueError "offer_price: none is not an allowed value")
      end
  end.

(** [OfferOptimizer.optimize_offers]: the body under
    [except Exception as e: raise HTTPException(status_code=500, detail=str(e))]. *)
Definition optimize_offers (self : OfferOptimizer) (request : OptimizationRequest)
  : res OptimizationResponse :=
  match optimize_offers_body self request with
  | Ok response => Ok response
  | Raise e => Raise (HTTPException 500 (str_exn e))
  end.

End Selection.

(** The failure surfaced when no candidate was recorded. *)
Definition NoSuitableOffer : exn := HTTPException 500 "No suitable offer found".

(** ** Vocabulary of the properties *)

(** The (model, offer) pairs in iteration order: models in request order,
    offers in each model's order. *)
Definition candidates (request : OptimizationRequest) : list (ModelInput * Offer) :=
  flat_map (fun m => map (pair m) (available_offers m)) (models request).

(** The score of a solver result, [-result.fun]. *)
Definition score (r : OptimizeResult) : xfloat := xneg (fun_ r).

(** Candidate [c] was optimized and the solver reported success with [r]. *)
Definition succeeded (minimize : solver) (self : OfferOptimizer)
    (request : OptimizationRequest) (c : ModelInput * Offer) (r : OptimizeResult) : Prop :=
  skipped request (fst c) (snd c) = false /\
  optimize_price minimize self request (fst c) (snd c) = Ok r /\
  success r = true.

(** What a bounded solver promises, one promise per definition.  Given
    well-formed bounds it raises only if the objective does (inverted bounds
    may be refused with an exception). *)
Definition solver_returns (minimize : solver) : Prop :=
  forall f x0 lo hi,
    lo <= hi ->
    (forall p, exists v, f p = Ok v) -> exists r, minimize f x0 (lo, hi) = Ok r.

(** A result reported as successful lies within well-formed bounds. *)
Definition solver_in_bounds (minimize : solver) : Prop :=
  forall f x0 lo hi r,
    lo <= hi -> minimize f x0 (lo, hi) = Ok r -> success r = true ->
    lo <= x r <= hi.

(** A result reported as successful carries the objective value at the
    point it returns. *)
Definition solver_value (minimize : solver) : Prop :=
  forall f x0 lo hi r,
    lo <= hi -> minimize f x0 (lo, hi) = Ok r -> success r = true ->
    f (x r) = Ok (fun_ r).

(** One pass of the inner loop body, on a flattened candidate. *)
Definition step (minimize : solver) (self : OfferOptimizer) (request : OptimizationRequest)
    (acc : Best) (c : ModelInput * Offer) : res Best :=
  consider minimize self request (fst c) acc (snd c).

(** The loop variables right after candidate [c] was recorded with
    result [r]. *)
Definition recorded (c : ModelInput * Offer) (r : OptimizeResult) : Best :=
  {| best_value := score r;
     best_model := Some (fst c);
     best_offer := Some (snd c);
     best_price := Some (x r) |}.

(** The response assembled from a recorded candidate. *)
Definition response_of (request : OptimizationRequest) (c : ModelInput * Offer)
    (r : OptimizeResult) : OptimizationResponse :=
  {| resp_customer_id := customer_id request;
     resp_copcar := copcar request;
     resp_opt_profit := score r;
     resp_expected_profit := copcar request - price (snd c);
     resp_model_name := model_name (fst c);
     resp_offer_name := offer_name (snd c);
     resp_offer_price := x r;
     resp_actual_offer_price := price (snd c);
     resp_offer_volume := volume (snd c) |}.

(** The same model under another category. *)
Definition with_category (m : ModelInput) (c : ModelCategory) : ModelInput :=
  {| model_name := model_name m;
     model_probability := model_probability m;
     model_category := c;
     available_offers := available_offers m |}.

(** ** The objective as the specification writes it *)

Module Spec.

Definition sigmoid (x : R) : R := 1 / (1 + exp (- x)).

(** Retention branch: the value formula with its three auxiliary
    quantities and the documented constants. *)
Definition retention_value (price : R) (offer : Offer) (model : ModelInput) (copcar : R) : R :=
  let dilution_rate := 1 - price / copcar in
  let churn_prob := 1 - model_probability model in
  let retention_score := (1 - churn_prob) * sigmoid (5.0 * dilution_rate) in
  1.0 * (copcar - price) * conversion_rate offer +
  1.5 * retention_score * copcar +
  0.3 * conversion_rate offer * dilution_rate +
  0.5 * model_probability model.

(** Non-retention branch. *)
Definition default_value (price : R) (offer : Offer) (model : ModelInput) (copcar : R) : R :=
  1.0 * (copcar - price) * conversion_rate offer +
  0.3 * conversion_rate offer * copcar / Rmax price 0.01 +
  0.5 * model_probability model.

(** The bounds table of the selection step. *)
Definition low (retention : bool) (copcar offer_price : R) : R :=
  if retention then Rmin (0.3 * copcar) (0.8 * offer_price)
  else Rmin (0.5 * copcar) (0.8 * offer_price).

Definition high (retention : bool) (copcar offer_price : R) : R :=
  if retention then Rmin (0.9 * copcar) offer_price
  else Rmin (0.95 * copcar) offer_price.

End Spec.

(** ** Fixtures *)

(** A solver that moves its initial guess into the bounds, stops there and
    reports success. *)
Definition guess_solver : solver :=
  fun f x0 b =>
    let x1 := py_max (fst b) (py_min x0 (snd b)) in
    v <- f x1 ;; ret {| success := true; x := x1; fun_ := v |}.

Definition offer_150 : Offer :=
  {| offer_name := "Retention Offer 1"; price := 150; volume := 200; conversion_rate := 0.2 |}.

Definition offer_250 : Offer :=
  {| offer_name := "Retention Offer 2"; price := 250; volume := 200; conversion_rate := 0.2 |}.

Definition offer_120 : Offer :=
  {| offer_name := "Growth Offer 1"; price := 120; volume := 150; conversion_rate := 0.25 |}.

Definition offer_120_twin : Offer :=
  {| offer_name := "Growth Offer 2"; price := 120; volume := 150; conversion_rate := 0.25 |}.

Definition churn_predictor (offers : list Offer) : ModelInput :=
  {| model_name := "churn_predictor"; model_probability := 0.8;
     model_category := RETENTION; available_offers := offers |}.

Definition upsell_predictor (offers : list Offer) : ModelInput :=
  {| model_name := "upsell_predictor"; model_probability := 0.4;
     model_category := GROWTH; available_offers := offers |}.

(** One retention offer below COPCAR. *)
Definition request_retention : OptimizationRequest :=
  {| customer_id := "CUST001"; copcar := 200; models := [churn_predictor [offer_150]] |}.

(** One retention offer, priced above COPCAR. *)
Definition request_all_infeasible : OptimizationRequest :=
  {| customer_id := "CUST002"; copcar := 200; models := [churn_predictor [offer_250]] |}.

(** An excluded retention offer next to an admissible one. *)
Definition request_mixed : OptimizationRequest :=
  {| customer_id := "CUST003"; copcar := 200;
     models := [churn_predictor [offer_250; offer_150]] |}.

(** One growth offer priced above COPCAR. *)
Definition request_growth_above : OptimizationRequest :=
  {| customer_id := "CUST004"; copcar := 100; models := [upsell_predictor [offer_120]] |}.

(** Two growth offers that differ in name only. *)
Definition request_tie : OptimizationRequest :=
  {| customer_id := "CUST005"; copcar := 100;
     models := [upsell_predictor [offer_120; offer_120_twin]] |}.

(** ** Further vocabulary *)

(** The request with more models appended after its own. *)
Definition with_more_models (request : OptimizationRequest) (extra : list ModelInput)
  : OptimizationRequest :=
  {| customer_id := customer_id request;
     copcar := copcar request;
     models := models request ++ extra |}.

(** A solver that always raises. *)
Definition broken_solver : solver :=
  fun _ _ _ => Raise (ValueError "Objective function must return a scalar").

(** The request with its list of models replaced. *)
Definition with_models (request : OptimizationRequest) (ms : list ModelInput)
  : OptimizationRequest :=
  {| customer_id := customer_id request;
     copcar := copcar request;
     models := ms |}.

(** Two growth models with one offer each. *)
Definition request_two_models : OptimizationRequest :=
  {| customer_id := "CUST007"; copcar := 100;
     models := [upsell_predictor [offer_120]; upsell_predictor [offer_120_twin]] |}.

(** A solver that gives up with an exception when the initial guess is
    above 100, and otherwise behaves like [guess_solver]. *)
Definition fussy_solver : solver :=
  fun f x0 b =>
    if Rgt_dec x0 100
    then Raise (ValueError "Positive directional derivative for linesearch")
    else guess_solver f x0 b.

(** Two retention offers below COPCAR. *)
Definition request_two_offers : OptimizationRequest :=
  {| customer_id := "CUST006"; copcar := 200;
     models := [churn_predictor [offer_120; offer_150]] |}.

(** A solver that never converges. *)
Definition stalled_solver : solver :=
  fun _ x0 _ => ret {| success := false; x := x0; fun_ := PosInf |}.

(** ** The request generators of the test module *)

(** The successive values of [random.random()]. *)
Definition rng : Type := nat -> R.

(** [random.uniform(a, b)], that is [a + (b - a) * random()]: the value and
    the generator left for later draws. *)
Definition random_uniform (a b : R) (g : rng) : R * rng :=
  (a + (b - a) * g 0%nat, fun n => g (S n)).

(** [str(n)] for a natural number. *)
Definition str_nat (n : nat) : string := NilEmpty.string_of_uint (Nat.to_uint n).

(** The loop of [generate_retention_offers], from index [i] for [n] more
    rounds. *)
Fixpoint generate_retention_offers_from (base_price : R) (i n : nat) (g : rng)
  : list Offer * rng :=
  match n with
  | O => ([], g)
  | S n' =>
      let (price_factor, g1) := random_uniform 0.8 1.2 g in
      let (volume_factor, g2) := random_uniform 0.9 1.5 g1 in
      let (rate, g3) := random_uniform 0.1 0.3 g2 in
      let offer :=
        {| offer_name := "Retention Offer " ++ str_nat (i + 1);
           price := base_price * price_factor;
           volume := base_price * volume_factor;
           conversion_rate := rate |} in
      let (offers, g') := generate_retention_offers_from base_price (S i) n' g3 in
      (offer :: offers, g')
  end.

Definition generate_retention_offers (base_price : R) (n_offers : nat) (g : rng)
  : list Offer * rng :=
  generate_retention_offers_from base_price 0 n_offers g.

(** The loop of [generate_growth_offers]. *)
Fixpoint generate_growth_offers_from (base_price : R) (i n : nat) (g : rng)
  : list Offer * rng :=
  match n with
  | O => ([], g)
  | S n' =>
      let (price_factor, g1) := random_uniform 0.7 1.0 g in
      let (volume_factor, g2) := random_uniform 1.0 2.0 g1 in
      let (rate, g3) := random_uniform 0.15 0.35 g2 in
      let offer :=
        {| offer_name := "Growth Offer " ++ str_nat (i + 1);
           price := base_price * price_factor;
           volume := base_price * volume_factor;
           conversion_rate := rate |} in
      let (offers, g') := generate_growth_offers_from base_price (S i) n' g3 in
      (offer :: offers, g')
  end.

Definition generate_growth_offers (base_price : R) (n_offers : nat) (g : rng)
  : list Offer * rng :=
  generate_growth_offers_from base_price 0 n_offers g.

(** The first request that [test_optimization] posts. *)
Definition high_churn_request (g : rng) : OptimizationRequest * rng :=
  let (retention_offers, g1) := generate_retention_offers 200.0 12 g in
  let (growth_offers, g2) := generate_growth_offers 180.0 10 g1 in
  ({| customer_id := "CUST001";
      copcar := 200.0;
      models :=
        [ {| model_name := "churn_predictor"; model_probability := 0.8;
             model_category := RETENTION; available_offers := retention_offers |};
          {| model_name := "upsell_predictor"; model_probability := 0.4;
             model_category := GROWTH; available_offers := growth_offers |} ] |},
   g2).

(** The second request that [test_optimization] posts. *)
Definition growth_opportunity_request (g : rng) : OptimizationRequest * rng :=
  let (retention_offers, g1) := generate_retention_offers 150.0 10 g in
  let (growth_offers, g2) := generate_growth_offers 140.0 15 g1 in
  ({| customer_id := "CUST002";
      copcar := 150.0;
      models :=
        [ {| model_name := "churn_predictor"; model_probability := 0.2;
             model_category := RETENTION; available_offers := retention_offers |};
          {| model_name := "upsell_predictor"; model_probability := 0.7;
             model_category := GROWTH; available_offers := growth_offers |} ] |},
   g2).

(** The draws of a generator all lie in the unit interval.  The end point
    1 is allowed: it stands for the draws so close to 1 that
    [a + (b - a) * random()] rounds to [b]. *)
Definition unit_draws (g : rng) : Prop := forall n, 0 <= g n <= 1.

(** A generator that always draws one half. *)
Definition steady_rng : rng := fun _ => 0.5.

(** ** The running process *)

(** What outlives a call: the module-level [optimizer] object, which every
    request is served by, and the records written through [logger]. *)
Record Process : Type := {
  optimizer_object : OfferOptimizer;
  logged : list string
}.

(** The process right after the module is loaded:
    [optimizer = OfferOptimizer()] and nothing logged. *)
Definition Process_init : Process :=
  {| optimizer_object := OfferOptimizer_init; logged := [] |}.

(** Code that runs in the process: it may read and write the process state
    and may raise. *)
Definition Run (A : Type) : Type := Process -> res A * Process.

Definition run_ret {A : Type} (a : A) : Run A := fun w => (Ok a, w).

Definition run_raise {A : Type} (e : exn) : Run A := fun w => (Raise e, w).

Definition run_bind {A B : Type} (m : Run A) (f : A -> Run B) : Run B :=
  fun w =>
    match m w with
    | (Ok a, w') => f a w'
    | (Raise e, w') => (Raise e, w')
    end.

Notation "x <~ m ;; k" := (run_bind m (fun x => k))
  (at level 61, m at next level, right associativity).

(** An expression that touches no state. *)
Definition run_pure {A : Type} (r : res A) : Run A := fun w => (r, w).

(** Reading an attribute of [self], the shared optimizer object. *)
Definition self_attr {A : Type} (attr : OfferOptimizer -> A) : Run A :=
  fun w => (Ok (attr (optimizer_object w)), w).

(** [logger.error(msg)] *)
Definition logger_error (msg : string) : Run unit :=
  fun w => (Ok tt, {| optimizer_object := optimizer_object w;
                      logged := logged w ++ [msg] |}).

(** [try: body except Exception as e: handler(e)] *)
Definition run_try {A : Type} (body : Run A) (handler : exn -> Run A) : Run A :=
  fun w =>
    match body w with
    | (Ok a, w') => (Ok a, w')
    | (Raise e, w') => handler e w'
    end.

(** [for a in l: body], threading the loop variables and the process. *)
Fixpoint run_for_each {A S : Type} (body : S -> A -> Run S) (l : list A) (s : S) : Run S :=
  match l with
  | [] => run_ret s
  | a :: l' => s' <~ body s a ;; run_for_each body l' s'
  end.

(** The methods of [OfferOptimizer] as they run in the process: every
    [self.k] and [self.weights[...]] is a read of the shared object at the
    moment it is evaluated. *)
Module Shared.

Definition sigmoid (x : R) : Run R := run_pure (fdiv 1 (1 + exp (- x))).

Definition calculate_retention_score (price copcar churn_prob : R) : Run R :=
  q <~ run_pure (fdiv price copcar) ;;
  let dilution_rate := 1 - q in
  self_k <~ self_attr k ;;
  s <~ sigmoid (self_k * dilution_rate) ;;
  run_ret ((1 - churn_prob) * s).

Definition evaluate_offer (price : R) (offer : Offer) (model : ModelInput) (copcar : R)
  : Run xfloat :=
  if category_eqb (model_category model) RETENTION then
    if Rge_dec price copcar then run_ret NegInf
    else
      retention_score <~
        calculate_retention_score price copcar (1 - model_probability model) ;;
      q <~ run_pure (fdiv price copcar) ;;
      let dilution_rate := 1 - q in
      profit <~ self_attr (fun self => w_profit (weights self)) ;;
      retention <~ self_attr (fun self => w_retention (weights self)) ;;
      efficiency <~ self_attr (fun self => w_efficiency (weights self)) ;;
      probability <~ self_attr (fun self => w_probability (weights self)) ;;
      run_ret (Fin (profit * (copcar - price) * conversion_rate offer +
                    retention * retention_score * copcar +
                    efficiency * (conversion_rate offer * dilution_rate) +
                    probability * model_probability model))
  else
    if Rge_dec price copcar then run_ret NegInf
    else
      profit <~ self_attr (fun self => w_profit (weights self)) ;;
      efficiency <~ self_attr (fun self => w_efficiency (weights self)) ;;
      e <~ run_pure (fdiv (conversion_rate offer * copcar) (py_max price 0.01)) ;;
      probability <~ self_attr (fun self => w_probability (weights self)) ;;
      run_ret (Fin (profit * (copcar - price) * conversion_rate offer +
                    efficiency * e +
                    probability * model_probability model)).

Section Selection.

Variable minimize : solver.

(** The [minimize(...)] call of one candidate.  The solver has no access to
    the process; it calls the objective back in the state in which it was
    entered, and what reaches the caller is the solver's result. *)
Definition optimize_price (request : OptimizationRequest)
    (model : ModelInput) (offer : Offer) : Run OptimizeResult :=
  let bounds := price_bounds request model offer in
  let initial_price := (fst bounds + snd bounds) / 2 in
  fun w =>
    (minimize
       (fun p => fst ((v <~ evaluate_offer p offer model (copcar request) ;;
                       run_ret (xneg v)) w))
       initial_price bounds,
     w).

Definition consider (request : OptimizationRequest)
    (model : ModelInput) (acc : Best) (offer : Offer) : Run Best :=
  if skipped request model offer then run_ret acc
  else
    result <~ optimize_price request model offer ;;
    if success result then
      let value := xneg (fun_ result) in
      if xgtb value (best_value acc) then
        run_ret {| best_value := value;
                   best_model := Some model;
                   best_offer := Some offer;
                   best_price := Some (x result) |}
      else run_ret acc
    else run_ret acc.

Definition select_best (request : OptimizationRequest) : Run Best :=
  run_for_each
    (fun acc model => run_for_each (consider request model) (available_offers model) acc)
    (models request) Best_init.

Definition optimize_offers_body (request : OptimizationRequest) : Run OptimizationResponse :=
  acc <~ select_best request ;;
  match best_offer acc with
  | None => run_raise (ValueError "No suitable offer found")
  | Some bo =>
      let expected_profit := copcar request - price bo in
      match best_model acc, best_price acc with
      | Some bm, Some bp =>
          run_ret {| resp_customer_id := customer_id request;
                     resp_copcar := copcar request;
                     resp_opt_profit := best_value acc;
                     resp_expected_profit := expected_profit;
                     resp_model_name := model_name bm;
                     resp_offer_name := offer_name bo;
                     resp_offer_price := bp;
                     resp_actual_offer_price := price bo;
                     resp_offer_volume := volume bo |}
      | None, _ =>
          run_raise (AttributeError "'NoneType' object has no attribute 'model_name'")
      | Some _, None => run_raise (ValueError "offer_price: none is not an allowed value")
      end
  end.

(** [OfferOptimizer.optimize_offers], with its handler: the error is logged
    and turned into an HTTP 500. *)
Definition optimize_offers (request : OptimizationRequest) : Run OptimizationResponse :=
  run_try (optimize_offers_body request)
    (fun e =>
       _ <~ logger_error ("Error in optimization for customer " ++
                          customer_id request ++ ": " ++ str_exn e) ;;
       run_raise (HTTPException 500 (str_exn e))).

(** The endpoint [POST /optimize]: the request is handed to the module-level
    optimizer. *)
Definition optimize_offer (request : OptimizationRequest) : Run OptimizationResponse :=
  optimize_offers request.

(** The process after serving the requests of [history] one after the
    other. *)
Definition serve (history : list OptimizationRequest) (w : Process) : Process :=
  fold_left (fun w request => snd (optimize_offer request w)) history w.

End Selection.

End Shared.

(** * Properties *)

(** ** Arithmetic helpers *)

Lemma bind_ok {A B : Type} (m : res A) (f : A -> res B) (b : B) :
  (x <- m ;; f x) = Ok b -> exists a, m = Ok a /\ f a = Ok b.
Proof.
  destruct m as [a | e]; simpl; intros H; [exists a; split; auto | discriminate].
Qed.

Lemma fdiv_ok (a b : R) : b <> 0 -> fdiv a b = Ok (a / b).
Proof.
  intros Hb. unfold fdiv. destruct (Req_dec_T b 0) as [E | _]; [contradiction | reflexivity].
Qed.

Lemma py_max_Rmax (a b : R) : py_max a b = Rmax a b.
Proof.
  unfold py_max, Rmax. destruct (Rgt_dec b a), (Rle_dec a b); try reflexivity; lra.
Qed.

Lemma py_min_Rmin (a b : R) : py_min a b = Rmin a b.
Proof.
  unfold py_min, Rmin. destruct (Rlt_dec b a), (Rle_dec a b); try reflexivity; lra.
Qed.

Lemma py_max_floor (a b : R) : b <= py_max a b.
Proof. unfold py_max. destruct (Rgt_dec b a); lra. Qed.

Lemma sigmoid_ok (t : R) : sigmoid t = Ok (Spec.sigmoid t).
Proof.
  unfold sigmoid, Spec.sigmoid. apply fdiv_ok.
  pose proof (exp_pos (- t)). lra.
Qed.

Lemma category_eqb_eq (a b : ModelCategory) : category_eqb a b = true <-> a = b.
Proof. destruct a, b; simpl; split; intros H; try reflexivity; discriminate. Qed.

Lemma category_eqb_neq (a b : ModelCategory) : category_eqb a b = false <-> a <> b.
Proof.
  destruct a, b; simpl; split; intros H; try reflexivity; try discriminate;
    try (exfalso; apply H; reflexivity).
Qed.

(** ** Objective evaluator *)

(** Positive COPCAR: the evaluator returns, with negative infinity at an
    infeasible price and a real number at a feasible one. *)
Lemma evaluate_offer_cases
    (self : OfferOptimizer) (price : R) (offer : Offer) (model : ModelInput) (copcar : R) :
  copcar > 0 ->
  (price >= copcar /\ evaluate_offer self price offer model copcar = Ok NegInf) \/
  (price < copcar /\ exists r, evaluate_offer self price offer model copcar = Ok (Fin r)).
Proof.
  intros Hc. unfold evaluate_offer.
  destruct (category_eqb (model_category model) RETENTION);
    destruct (Rge_dec price copcar) as [Hge | Hlt].
  - left. split; [assumption | reflexivity].
  - right. split; [lra |]. unfold calculate_retention_score.
    rewrite (fdiv_ok price copcar) by lra. simpl bind.
    rewrite sigmoid_ok. simpl bind. eexists. reflexivity.
  - left. split; [assumption | reflexivity].
  - right. split; [lra |].
    rewrite fdiv_ok by (pose proof (py_max_floor price 0.01); lra).
    simpl bind. eexists. reflexivity.
Qed.

(** C2. At a price strictly below COPCAR (COPCAR not zero, as every
    validated COPCAR is), a retention model is scored by the documented
    formula: profit, retention, efficiency and probability terms weighted
    1.0, 1.5, 0.3 and 0.5, with dilution rate [1 - price/copcar], churn
    [1 - probability] and retention score
    [(1 - churn) * sigmoid(5.0 * dilution)]. *)
Theorem evaluate_offer_retention (price : R) (offer : Offer) (model : ModelInput) (copcar : R) :
  model_category model = RETENTION ->
  copcar <> 0 ->
  price < copcar ->
  evaluate_offer optimizer price offer model copcar =
  Ok (Fin (Spec.retention_value price offer model copcar)).
Proof.
  intros Hcat Hc Hp. unfold evaluate_offer. rewrite Hcat. simpl category_eqb. cbv iota.
  destruct (Rge_dec price copcar) as [Hge | _]; [lra |].
  unfold calculate_retention_score.
  rewrite (fdiv_ok price copcar) by assumption. simpl bind.
  rewrite sigmoid_ok. simpl bind. unfold ret. do 2 f_equal.
  unfold Spec.retention_value. simpl. ring.
Qed.

Lemma evaluate_offer_retention_witness :
  evaluate_offer optimizer 100
    {| offer_name := "A"; price := 150; volume := 200; conversion_rate := 0.2 |}
    {| model_name := "churn"; model_probability := 0.8; model_category := RETENTION;
       available_offers := [] |} 200 =
  Ok (Fin (Spec.retention_value 100
    {| offer_name := "A"; price := 150; volume := 200; conversion_rate := 0.2 |}
    {| model_name := "churn"; model_probability := 0.8; model_category := RETENTION;
       available_offers := [] |} 200)).
Proof. apply evaluate_offer_retention; [reflexivity | lra | lra]. Defined.

(** C3. At a price strictly below COPCAR, a model of any category other than
    retention is scored by the documented non-retention formula; and growth,
    acquisition and other are interchangeable at every input, feasible or
    not. *)
Theorem evaluate_offer_non_retention
    (price : R) (offer : Offer) (model : ModelInput) (copcar : R) :
  model_category model <> RETENTION ->
  (price < copcar ->
   evaluate_offer optimizer price offer model copcar =
   Ok (Fin (Spec.default_value price offer model copcar))) /\
  (forall (c : ModelCategory) (p cc : R), c <> RETENTION ->
   evaluate_offer optimizer p offer (with_category model c) cc =
   evaluate_offer optimizer p offer model cc).
Proof.
  intros Hcat. apply category_eqb_neq in Hcat. split.
  - intros Hp. unfold evaluate_offer. rewrite Hcat.
    destruct (Rge_dec price copcar) as [Hge | _]; [lra |].
    rewrite fdiv_ok by (pose proof (py_max_floor price 0.01); lra).
    simpl bind. unfold ret. do 2 f_equal.
    unfold Spec.default_value. rewrite py_max_Rmax. simpl.
    assert (Rmax price 0.01 <> 0)
      by (pose proof (Rmax_r price 0.01); lra).
    field; assumption.
  - intros c p cc Hc. apply category_eqb_neq in Hc.
    unfold evaluate_offer. simpl model_category. rewrite Hc, Hcat. reflexivity.
Qed.

Lemma evaluate_offer_non_retention_witness :
  evaluate_offer optimizer 100
    {| offer_name := "G"; price := 150; volume := 200; conversion_rate := 0.2 |}
    {| model_name := "upsell"; model_probability := 0.4; model_category := GROWTH;
       available_offers := [] |} 200 =
  Ok (Fin (Spec.default_value 100
    {| offer_name := "G"; price := 150; volume := 200; conversion_rate := 0.2 |}
    {| model_name := "upsell"; model_probability := 0.4; model_category := GROWTH;
       available_offers := [] |} 200)).
Proof.
  apply (evaluate_offer_non_retention 100
    {| offer_name := "G"; price := 150; volume := 200; conversion_rate := 0.2 |}
    {| model_name := "upsell"; model_probability := 0.4; model_category := GROWTH;
       available_offers := [] |} 200); [discriminate | lra].
Defined.

(** C4. With COPCAR positive the evaluator never raises, whatever the price,
    offer and model, and the value it returns is negative infinity exactly
    when the price is at least COPCAR, in either branch. *)
Theorem evaluate_offer_total
    (self : OfferOptimizer) (price : R) (offer : Offer) (model : ModelInput) (copcar : R) :
  copcar > 0 ->
  exists v : xfloat,
    evaluate_offer self price offer model copcar = Ok v /\
    (v = NegInf <-> price >= copcar).
Proof.
  intros Hc.
  destruct (evaluate_offer_cases self price offer model copcar Hc)
    as [[Hge ->] | [Hlt [r ->]]].
  - exists NegInf. split; [reflexivity | tauto].
  - exists (Fin r). split; [reflexivity |]. split; [discriminate | lra].
Qed.

Lemma evaluate_offer_total_witness :
  exists v : xfloat,
    evaluate_offer optimizer 250
      {| offer_name := "A"; price := 250; volume := 200; conversion_rate := 0.2 |}
      {| model_name := "churn"; model_probability := 0.8; model_category := RETENTION;
         available_offers := [] |} 200 = Ok v /\
    (v = NegInf <-> 250 >= 200).
Proof. apply evaluate_offer_total; lra. Defined.

Ltac split_ands := repeat match goal with |- _ /\ _ => split end.

(** ** The order on objective values *)

Ltac xorder :=
  repeat match goal with
         | v : xfloat |- _ => destruct v
         end;
  simpl in *;
  repeat match goal with
         | H : context [Rgt_dec ?a ?b] |- _ => destruct (Rgt_dec a b)
         | |- context [Rgt_dec ?a ?b] => destruct (Rgt_dec a b)
         end;
  try reflexivity; try discriminate; try lra.

Lemma xgtb_irrefl (a : xfloat) : xgtb a a = false.
Proof. xorder. Qed.

Lemma xgtb_trans (a b c : xfloat) :
  xgtb a b = true -> xgtb b c = true -> xgtb a c = true.
Proof. intros; xorder. Qed.

Lemma xgtb_above (a b c : xfloat) :
  xgtb a b = true -> xgtb c b = false -> xgtb a c = true.
Proof. intros; xorder. Qed.

Lemma xgtb_asym (a b : xfloat) : xgtb a b = true -> xgtb b a = false.
Proof. intros; xorder. Qed.


(** ** The loops as one pass over the candidates *)

Lemma for_each_app {A S : Type} (body : S -> A -> res S) (l1 l2 : list A) (s : S) :
  for_each body (l1 ++ l2) s = (s' <- for_each body l1 s ;; for_each body l2 s').
Proof.
  revert s. induction l1 as [| a l1 IH]; intros s; simpl; [reflexivity |].
  destruct (body s a) as [s1 | e]; simpl; [apply IH | reflexivity].
Qed.

Lemma for_each_map {A B S : Type} (body : S -> B -> res S) (g : A -> B) (l : list A) (s : S) :
  for_each body (map g l) s = for_each (fun s a => body s (g a)) l s.
Proof.
  revert s. induction l as [| a l IH]; intros s; simpl; [reflexivity |].
  destruct (body s (g a)); simpl; [apply IH | reflexivity].
Qed.

Section Loop.

Variable minimize : solver.
Variable self : OfferOptimizer.
Variable request : OptimizationRequest.

Lemma select_best_flat :
  select_best minimize self request =
  for_each (step minimize self request) (candidates request) Best_init.
Proof.
  unfold select_best, candidates. generalize Best_init.
  induction (models request) as [| m ms IH]; intros acc; simpl; [reflexivity |].
  rewrite for_each_app, for_each_map. unfold step at 1. simpl.
  destruct (for_each (consider minimize self request m) (available_offers m) acc);
    simpl; [apply IH | reflexivity].
Qed.

(** The three ways one pass can go without raising. *)
Lemma step_cases (acc acc' : Best) (c : ModelInput * Offer) :
  step minimize self request acc c = Ok acc' ->
  (acc' = acc /\ skipped request (fst c) (snd c) = true) \/
  (exists r, succeeded minimize self request c r /\
             xgtb (score r) (best_value acc) = true /\ acc' = recorded c r) \/
  (acc' = acc /\ skipped request (fst c) (snd c) = false /\
   exists r, optimize_price minimize self request (fst c) (snd c) = Ok r /\
             (success r = true -> xgtb (score r) (best_value acc) = false)).
Proof.
  unfold step, consider, succeeded, ret.
  destruct (skipped request (fst c) (snd c)) eqn:Hs.
  - intros H. injection H as <-. left. split; reflexivity.
  - intros H. apply bind_ok in H. destruct H as [r [Hr H]].
    destruct (success r) eqn:Hok.
    + fold (score r) in H. destruct (xgtb (score r) (best_value acc)) eqn:Hgt.
      * injection H as <-. right. left. exists r. repeat split; assumption.
      * injection H as <-. right. right. repeat split. exists r. split; auto.
    + injection H as <-. right. right. repeat split. exists r. split; [assumption |].
      intros Habs. rewrite Hok in Habs. discriminate Habs.
Qed.

(** Outcome of a pass over [cs] that starts from [acc] and does not raise:
    either nothing beat [acc], or the loop variables hold the first
    candidate whose score no candidate of [cs] exceeds. *)
Lemma for_each_step_inv (cs : list (ModelInput * Offer)) (acc acc' : Best) :
  for_each (step minimize self request) cs acc = Ok acc' ->
  (acc' = acc /\
   forall c r, In c cs -> succeeded minimize self request c r ->
               xgtb (score r) (best_value acc) = false) \/
  (exists pre c post r,
      cs = pre ++ c :: post /\
      succeeded minimize self request c r /\
      acc' = recorded c r /\
      xgtb (score r) (best_value acc) = true /\
      (forall c' r', In c' pre -> succeeded minimize self request c' r' ->
                     xgtb (score r) (score r') = true) /\
      (forall c' r', In c' post -> succeeded minimize self request c' r' ->
                     xgtb (score r') (score r) = false)).
Proof.
  revert acc. induction cs as [| c cs IH]; intros acc H; simpl in H; unfold ret in H.
  - injection H as <-. left. split; [reflexivity |]. intros c r [].
  - apply bind_ok in H. destruct H as [acc1 [Hstep Hrest]].
    apply step_cases in Hstep. apply IH in Hrest. clear IH.
    assert (Hsame : acc1 = acc ->
              (forall r, succeeded minimize self request c r ->
                         xgtb (score r) (best_value acc) = false) ->
              (acc' = acc /\
               forall c0 r, In c0 (c :: cs) -> succeeded minimize self request c0 r ->
                            xgtb (score r) (best_value acc) = false) \/
              (exists pre c0 post r,
                  c :: cs = pre ++ c0 :: post /\
                  succeeded minimize self request c0 r /\
                  acc' = recorded c0 r /\
                  xgtb (score r) (best_value acc) = true /\
                  (forall c' r', In c' pre -> succeeded minimize self request c' r' ->
                                 xgtb (score r) (score r') = true) /\
                  (forall c' r', In c' post -> succeeded minimize self request c' r' ->
                                 xgtb (score r') (score r) = false))).
    { intros -> Hc.
      destruct Hrest as [[-> Hall] | (pre & c0 & post & r & Hcs & Hsucc & Hacc & Hgt & Hpre & Hpost)].
      - left. split; [reflexivity |]. intros c0 r [<- | Hin] Hs; [apply Hc | eapply Hall]; eauto.
      - right. exists (c :: pre), c0, post, r. split_ands; try assumption.
        + simpl. rewrite Hcs. reflexivity.
        + intros c' r' [<- | Hin] Hs; [| eapply Hpre; eauto].
          eapply xgtb_above; [exact Hgt | apply Hc; exact Hs]. }
    destruct Hstep as [[-> Hskip] | [(r & Hsucc & Hgt & ->) | (-> & Hskip & r & Hr & Hle)]].
    + apply Hsame; [reflexivity |]. intros r [Hs _]. rewrite Hs in Hskip. discriminate.
    + right. simpl in Hrest.
      destruct Hrest as [[-> Hall] | (pre & c0 & post & r0 & Hcs & Hsucc0 & Hacc & Hgt0 & Hpre & Hpost)].
      * exists [], c, cs, r. split_ands; try assumption; try reflexivity.
        intros c' r' [].
      * exists (c :: pre), c0, post, r0. split_ands; try assumption.
        -- simpl. rewrite Hcs. reflexivity.
        -- eapply xgtb_trans; eassumption.
        -- intros c' r' [<- | Hin] Hs; [| eapply Hpre; eauto].
           destruct Hsucc as (_ & Hr & _). destruct Hs as (_ & Hr' & _).
           rewrite Hr in Hr'. injection Hr' as <-. exact Hgt0.
    + apply Hsame; [reflexivity |]. intros r' (_ & Hr' & Hok).
      rewrite Hr in Hr'. injection Hr' as <-. apply Hle, Hok.
Qed.

End Loop.

(** ** From the loop to the response *)

Lemma in_candidates (request : OptimizationRequest) (m : ModelInput) (o : Offer) :
  In (m, o) (candidates request) <-> In m (models request) /\ In o (available_offers m).
Proof.
  unfold candidates. rewrite in_flat_map. split.
  - intros [m' [Hm Ho]]. apply in_map_iff in Ho. destruct Ho as [o' [E Ho']].
    injection E as -> ->. split; assumption.
  - intros [Hm Ho]. exists m. split; [assumption |]. apply in_map. assumption.
Qed.

Lemma skipped_true (request : OptimizationRequest) (m : ModelInput) (o : Offer) :
  skipped request m o = true <->
  model_category m = RETENTION /\ price o >= copcar request.
Proof.
  unfold skipped. rewrite andb_true_iff, category_eqb_eq.
  destruct (Rge_dec (price o) (copcar request)); intuition discriminate.
Qed.

Lemma price_bounds_spec (request : OptimizationRequest) (m : ModelInput) (o : Offer) :
  price_bounds request m o =
  (Spec.low (category_eqb (model_category m) RETENTION) (copcar request) (price o),
   Spec.high (category_eqb (model_category m) RETENTION) (copcar request) (price o)).
Proof.
  unfold price_bounds, Spec.low, Spec.high.
  destruct (category_eqb (model_category m) RETENTION);
    rewrite !py_min_Rmin; f_equal; f_equal; ring.
Qed.

(** For a positive COPCAR and a positive catalog price the bounds are a
    proper interval of positive prices below COPCAR. *)
Lemma bounds_ordered (b : bool) (cc p : R) :
  cc > 0 -> p > 0 ->
  0 < Spec.low b cc p /\ Spec.low b cc p <= Spec.high b cc p /\ Spec.high b cc p < cc.
Proof.
  intros Hc Hp. unfold Spec.low, Spec.high, Rmin.
  destruct b;
    repeat match goal with
           | |- context [Rle_dec ?a ?b] => destruct (Rle_dec a b)
           end; lra.
Qed.

Section Response.

Variable minimize : solver.
Variable self : OfferOptimizer.
Variable request : OptimizationRequest.

(** A returned response is assembled from the first candidate, in iteration
    order, whose score no successful candidate exceeds. *)
Lemma optimize_offers_ok (resp : OptimizationResponse) :
  optimize_offers minimize self request = Ok resp ->
  exists pre c post r,
    candidates request = pre ++ c :: post /\
    succeeded minimize self request c r /\
    resp = response_of request c r /\
    xgtb (score r) NegInf = true /\
    (forall c' r', In c' pre -> succeeded minimize self request c' r' -> xgtb (score r) (score r') = true) /\
    (forall c' r', In c' post -> succeeded minimize self request c' r' -> xgtb (score r') (score r) = false).
Proof.
  unfold optimize_offers, optimize_offers_body. rewrite select_best_flat.
  destruct (for_each (step minimize self request) (candidates request) Best_init)
    as [acc | e] eqn:Hloop; simpl; [| discriminate].
  apply for_each_step_inv in Hloop.
  destruct Hloop as [[-> _] | (pre & c & post & r & Hcs & Hs & -> & Hgt & Hpre & Hpost)];
    simpl; [discriminate |].
  intros H. injection H as <-.
  exists pre, c, post, r. split_ands; try assumption. reflexivity.
Qed.

(** The call fails for want of an offer exactly when the loops end without
    raising and with nothing recorded. *)
Lemma optimize_offers_none :
  for_each (step minimize self request) (candidates request) Best_init = Ok Best_init ->
  optimize_offers minimize self request = Raise NoSuitableOffer.
Proof.
  intros H. unfold optimize_offers, optimize_offers_body.
  rewrite select_best_flat, H. reflexivity.
Qed.

Lemma optimize_offers_some (c : ModelInput * Offer) (r : OptimizeResult) :
  for_each (step minimize self request) (candidates request) Best_init = Ok (recorded c r) ->
  optimize_offers minimize self request = Ok (response_of request c r).
Proof.
  intros H. unfold optimize_offers, optimize_offers_body.
  rewrite select_best_flat, H. reflexivity.
Qed.

End Response.

(** ** Evaluating the fixtures *)

(** Decides the comparisons of real constants met while running a fixture. *)
Ltac no_dec a :=
  lazymatch a with
  | context [Rge_dec _ _] => fail
  | context [Rgt_dec _ _] => fail
  | context [Rlt_dec _ _] => fail
  | context [Req_dec_T _ _] => fail
  | _ => idtac
  end.

Ltac rdec_at t :=
  try match t with
      | context [exp ?u] => pose proof (exp_pos u)
      end;
  first [ destruct t; [exfalso; lra |] | destruct t; [| exfalso; lra] ].

Ltac rdec :=
  repeat match goal with
         | |- context [Rge_dec ?a ?b] => no_dec a; no_dec b; rdec_at (Rge_dec a b)
         | |- context [Rgt_dec ?a ?b] => no_dec a; no_dec b; rdec_at (Rgt_dec a b)
         | |- context [Rlt_dec ?a ?b] => no_dec a; no_dec b; rdec_at (Rlt_dec a b)
         | |- context [Req_dec_T ?a ?b] => no_dec a; no_dec b; rdec_at (Req_dec_T a b)
         end.

Ltac run_fixture :=
  cbv [optimize_offers optimize_offers_body select_best for_each consider skipped
       optimize_price price_bounds guess_solver evaluate_offer calculate_retention_score
       sigmoid fdiv py_max py_min bind ret category_eqb xgtb xneg score
       request_retention request_all_infeasible request_mixed request_growth_above
       request_tie churn_predictor upsell_predictor
       offer_150 offer_250 offer_120 offer_120_twin
       models available_offers model_category model_probability model_name
       copcar customer_id price volume conversion_rate offer_name
       success x fun_ fst snd andb
       best_value best_model best_offer best_price Best_init
       optimizer OfferOptimizer_init k weights
       w_profit w_retention w_efficiency w_probability];
  rdec.

Lemma guess_solver_returns : solver_returns guess_solver.
Proof.
  intros f x0 lo hi _ Hf. unfold guess_solver.
  destruct (Hf (py_max (fst (lo, hi)) (py_min x0 (snd (lo, hi))))) as [v ->].
  simpl. eexists. reflexivity.
Qed.

Lemma guess_solver_result (f : R -> res xfloat) (x0 lo hi : R) (r : OptimizeResult) :
  guess_solver f x0 (lo, hi) = Ok r ->
  x r = py_max lo (py_min x0 hi) /\ f (x r) = Ok (fun_ r).
Proof.
  unfold guess_solver. simpl fst. simpl snd. intros H.
  apply bind_ok in H. destruct H as [v [Hv H]]. injection H as <-. simpl. auto.
Qed.

Lemma guess_solver_in_bounds : solver_in_bounds guess_solver.
Proof.
  intros f x0 lo hi r Hb H _. apply guess_solver_result in H. destruct H as [-> _].
  unfold py_max, py_min.
  destruct (Rlt_dec hi x0); destruct (Rgt_dec _ lo); lra.
Qed.

Lemma guess_solver_value : solver_value guess_solver.
Proof.
  intros f x0 lo hi r _ H _. apply guess_solver_result in H. apply H.
Qed.

Lemma request_retention_valid : valid_request request_retention.
Proof.
  split; [simpl; lra |]. repeat constructor; simpl; lra.
Qed.

Lemma request_mixed_valid : valid_request request_mixed.
Proof.
  split; [simpl; lra |]. repeat constructor; simpl; lra.
Qed.

Lemma stalled_solver_returns : solver_returns stalled_solver.
Proof. intros f x0 lo hi _ _. eexists. reflexivity. Qed.

Lemma stalled_solver_in_bounds : solver_in_bounds stalled_solver.
Proof. intros f x0 lo hi r _ H Hok. injection H as <-. discriminate Hok. Qed.

Lemma stalled_solver_value : solver_value stalled_solver.
Proof. intros f x0 lo hi r _ H Hok. injection H as <-. discriminate Hok. Qed.

Lemma run_retention :
  exists resp, optimize_offers guess_solver optimizer request_retention = Ok resp.
Proof. run_fixture. eexists. reflexivity. Qed.

Lemma run_mixed :
  exists resp, optimize_offers guess_solver optimizer request_mixed = Ok resp /\
               resp_offer_name resp = "Retention Offer 1"%string.
Proof. run_fixture. eexists. split; reflexivity. Qed.

Lemma run_tie :
  exists resp, optimize_offers guess_solver optimizer request_tie = Ok resp /\
               resp_offer_name resp = "Growth Offer 1"%string.
Proof. run_fixture. eexists. split; reflexivity. Qed.

(** ** Offer selection *)

(** C1, as the code has it.  One pass of the loop replaces the recorded
    best only by a successfully optimized candidate whose score is strictly
    greater; and whenever the call returns, the response is assembled from
    exactly one candidate of the request, met in iteration order (models in
    request order, offers in model order), that was optimized successfully,
    whose score no successful candidate exceeds and which strictly beats
    every successful candidate met before it, so that the first-seen
    candidate wins a tie.  (A call that records no candidate does not
    return a triple; it fails.) *)
Theorem optimize_offers_first_maximum
    (minimize : solver) (self : OfferOptimizer) (request : OptimizationRequest) :
  (forall acc acc' c,
     step minimize self request acc c = Ok acc' ->
     acc' = acc \/
     exists r, succeeded minimize self request c r /\
               xgtb (score r) (best_value acc) = true /\ acc' = recorded c r) /\
  (forall resp,
     optimize_offers minimize self request = Ok resp ->
     exists pre c post r,
       candidates request = pre ++ c :: post /\
       succeeded minimize self request c r /\
       resp = response_of request c r /\
       (forall c' r', In c' (candidates request) ->
                      succeeded minimize self request c' r' ->
                      xgtb (score r') (score r) = false) /\
       (forall c' r', In c' pre ->
                      succeeded minimize self request c' r' ->
                      xgtb (score r) (score r') = true)).
Proof.
  split.
  - intros acc acc' c H. apply step_cases in H.
    destruct H as [[-> _] | [(r & Hs & Hgt & ->) | (-> & _)]]; auto.
    right. exists r. auto.
  - intros resp H. apply optimize_offers_ok in H.
    destruct H as (pre & c & post & r & Hcs & Hs & -> & _ & Hpre & Hpost).
    exists pre, c, post, r. split_ands; try assumption; try reflexivity.
    intros c' r' Hin Hs'. rewrite Hcs in Hin. apply in_app_or in Hin.
    destruct Hin as [Hin | [<- | Hin]].
    + apply xgtb_asym. eapply Hpre; eassumption.
    + destruct Hs as (_ & Hr & _). destruct Hs' as (_ & Hr' & _).
      rewrite Hr in Hr'. injection Hr' as <-. apply xgtb_irrefl.
    + eapply Hpost; eassumption.
Qed.

(** C1 as stated fails: on the request whose only offer is a retention
    offer priced above COPCAR the call returns no triple at all. *)
Lemma optimize_offers_may_return_nothing :
  ~ exists resp, optimize_offers guess_solver optimizer request_all_infeasible = Ok resp.
Proof.
  intros [resp H]. revert H. run_fixture. discriminate.
Qed.

(** C5. A retention offer whose catalog price is at least COPCAR leaves the
    loop variables untouched without the solver being consulted (whatever
    solver is plugged in), and the candidate a response is assembled from is
    never that (model, offer) pair. *)
Theorem excluded_retention_offer_never_selected
    (minimize : solver) (self : OfferOptimizer) (request : OptimizationRequest)
    (m : ModelInput) (o : Offer) :
  model_category m = RETENTION ->
  price o >= copcar request ->
  (forall acc, consider minimize self request m acc o = Ok acc) /\
  (forall resp,
     optimize_offers minimize self request = Ok resp ->
     exists c r,
       In c (candidates request) /\ c <> (m, o) /\
       succeeded minimize self request c r /\ resp = response_of request c r).
Proof.
  intros Hcat Hprice.
  assert (Hskip : skipped request m o = true) by (apply skipped_true; auto).
  split.
  - intros acc. unfold consider. rewrite Hskip. reflexivity.
  - intros resp H. apply optimize_offers_ok in H.
    destruct H as (pre & c & post & r & Hcs & Hs & -> & _).
    exists c, r. split_ands; try assumption; try reflexivity.
    + rewrite Hcs. apply in_or_app. right. left. reflexivity.
    + intros ->. destruct Hs as (Hns & _). simpl in Hns. rewrite Hskip in Hns. discriminate.
Qed.

(** C7. In every returned response the expected profit is COPCAR minus the
    catalog price of the selected offer, as an identity on the response
    fields; the optimized price is carried separately. *)
Theorem expected_profit_identity
    (minimize : solver) (self : OfferOptimizer) (request : OptimizationRequest)
    (resp : OptimizationResponse) :
  optimize_offers minimize self request = Ok resp ->
  resp_expected_profit resp = resp_copcar resp - resp_actual_offer_price resp /\
  resp_copcar resp = copcar request /\
  exists c r,
    In c (candidates request) /\ succeeded minimize self request c r /\
    resp_actual_offer_price resp = price (snd c) /\
    resp_offer_name resp = offer_name (snd c) /\
    resp_offer_price resp = x r.
Proof.
  intros H. apply optimize_offers_ok in H.
  destruct H as (pre & c & post & r & Hcs & Hs & -> & _).
  simpl. split_ands; try reflexivity.
  exists c, r. split_ands; try assumption; try reflexivity.
  rewrite Hcs. apply in_or_app. right. left. reflexivity.
Qed.

(** ** What the solver's promises give the loop *)

Section Contract.

Variable minimize : solver.
Variable self : OfferOptimizer.
Variable request : OptimizationRequest.
Hypothesis request_ok : valid_request request.

Lemma candidate_valid (c : ModelInput * Offer) :
  In c (candidates request) -> copcar request > 0 /\ price (snd c) > 0.
Proof.
  destruct c as [m o]. rewrite in_candidates. intros [Hm Ho].
  destruct request_ok as [Hc Hms]. split; [assumption |].
  rewrite Forall_forall in Hms. destruct (Hms m Hm) as (_ & _ & Hos).
  rewrite Forall_forall in Hos. apply (Hos o Ho).
Qed.

Lemma objective_returns (m : ModelInput) (o : Offer) (p : R) :
  exists v,
    (v <- evaluate_offer self p o m (copcar request) ;; ret (xneg v)) = Ok v.
Proof.
  destruct request_ok as [Hc _].
  destruct (evaluate_offer_cases self p o m (copcar request) Hc)
    as [[_ ->] | [_ [r ->]]]; simpl; eexists; reflexivity.
Qed.

Lemma optimize_price_returns (c : ModelInput * Offer) :
  solver_returns minimize ->
  In c (candidates request) ->
  exists r, optimize_price minimize self request (fst c) (snd c) = Ok r.
Proof.
  intros Hret Hin. destruct (candidate_valid c Hin) as [Hc Hp].
  unfold optimize_price. rewrite price_bounds_spec. simpl fst. simpl snd.
  apply Hret.
  - apply (bounds_ordered _ _ _ Hc Hp).
  - intros p. apply objective_returns.
Qed.

Lemma loop_returns (cs : list (ModelInput * Offer)) (acc : Best) :
  solver_returns minimize ->
  incl cs (candidates request) ->
  exists acc', for_each (step minimize self request) cs acc = Ok acc'.
Proof.
  intros Hret. revert acc. induction cs as [| c cs IH]; intros acc Hincl; simpl.
  - eexists. reflexivity.
  - assert (Hstep : exists acc1, step minimize self request acc c = Ok acc1).
    { unfold step, consider. destruct (skipped request (fst c) (snd c)).
      - eexists. reflexivity.
      - destruct (optimize_price_returns c Hret (Hincl c (or_introl eq_refl)))
          as [r ->]. simpl.
        destruct (success r); [| eexists; reflexivity].
        destruct (xgtb _ _); eexists; reflexivity. }
    destruct Hstep as [acc1 ->]. simpl. apply IH.
    intros c' Hc'. apply Hincl. right. exact Hc'.
Qed.

Lemma succeeded_in_bounds (c : ModelInput * Offer) (r : OptimizeResult) :
  solver_in_bounds minimize ->
  In c (candidates request) ->
  succeeded minimize self request c r ->
  Spec.low (category_eqb (model_category (fst c)) RETENTION) (copcar request) (price (snd c))
    <= x r <=
  Spec.high (category_eqb (model_category (fst c)) RETENTION) (copcar request) (price (snd c)).
Proof.
  intros Hin_b Hin (_ & Hr & Hok).
  destruct (candidate_valid c Hin) as [Hc Hp].
  unfold optimize_price in Hr. rewrite price_bounds_spec in Hr. simpl fst in Hr. simpl snd in Hr.
  eapply Hin_b; [| exact Hr | exact Hok].
  apply (bounds_ordered _ _ _ Hc Hp).
Qed.

Lemma succeeded_finite (c : ModelInput * Offer) (r : OptimizeResult) :
  solver_in_bounds minimize ->
  solver_value minimize ->
  In c (candidates request) ->
  succeeded minimize self request c r ->
  xgtb (score r) NegInf = true.
Proof.
  intros Hin_b Hval Hin Hs.
  pose proof (succeeded_in_bounds c r Hin_b Hin Hs) as Hx.
  destruct Hs as (_ & Hr & Hok).
  destruct (candidate_valid c Hin) as [Hc Hp].
  pose proof (bounds_ordered (category_eqb (model_category (fst c)) RETENTION) _ _ Hc Hp)
    as (_ & Hord & Hhi).
  unfold optimize_price in Hr. rewrite price_bounds_spec in Hr. simpl fst in Hr. simpl snd in Hr.
  pose proof (Hval _ _ _ _ _ Hord Hr Hok) as Hfun. simpl in Hfun.
  destruct (evaluate_offer_cases self (x r) (snd c) (fst c) (copcar request) Hc)
    as [[Hge _] | [_ [v Hv]]]; [lra |].
  rewrite Hv in Hfun. simpl in Hfun. injection Hfun as Hfun.
  unfold score. rewrite <- Hfun. reflexivity.
Qed.

End Contract.

(** A pass in which every candidate is skipped or not successful leaves the
    loop variables as they were. *)
Lemma loop_nothing_recorded
    (minimize : solver) (self : OfferOptimizer) (request : OptimizationRequest)
    (cs : list (ModelInput * Offer)) (acc : Best) :
  (forall c, In c cs ->
     skipped request (fst c) (snd c) = true \/
     exists r, optimize_price minimize self request (fst c) (snd c) = Ok r /\
               success r = false) ->
  for_each (step minimize self request) cs acc = Ok acc.
Proof.
  induction cs as [| c cs IH]; intros H; simpl; [reflexivity |].
  assert (Hstep : step minimize self request acc c = Ok acc).
  { unfold step, consider.
    destruct (H c (or_introl eq_refl)) as [-> | [r [-> Hf]]]; [reflexivity |].
    destruct (skipped request (fst c) (snd c)); [reflexivity |].
    simpl. rewrite Hf. reflexivity. }
  rewrite Hstep. simpl. apply IH. intros c' Hc'. apply H. right. assumption.
Qed.

Lemma request_growth_above_succeeds :
  exists r,
    optimize_price guess_solver optimizer request_growth_above
      (upsell_predictor [offer_120]) offer_120 = Ok r /\
    success r = true /\ xgtb (score r) NegInf = true.
Proof. run_fixture. eexists. split_ands; reflexivity. Qed.

(** C6. With a validated request and a solver whose successful results lie
    within the bounds it was given, the optimized price of every returned
    response lies within the bounds of the selected candidate's category
    (retention: from min(0.3 copcar, 0.8 price) to min(0.9 copcar, price);
    otherwise: from min(0.5 copcar, 0.8 price) to min(0.95 copcar, price)),
    and is positive and at most COPCAR. *)
Theorem offer_price_within_bounds
    (minimize : solver) (self : OfferOptimizer) (request : OptimizationRequest)
    (resp : OptimizationResponse) :
  valid_request request ->
  solver_in_bounds minimize ->
  optimize_offers minimize self request = Ok resp ->
  exists c r,
    In c (candidates request) /\
    succeeded minimize self request c r /\
    resp = response_of request c r /\
    Spec.low (category_eqb (model_category (fst c)) RETENTION)
             (copcar request) (price (snd c))
      <= resp_offer_price resp <=
    Spec.high (category_eqb (model_category (fst c)) RETENTION)
              (copcar request) (price (snd c)) /\
    0 < resp_offer_price resp <= copcar request.
Proof.
  intros Hv Hb H. apply optimize_offers_ok in H.
  destruct H as (pre & c & post & r & Hcs & Hs & -> & _).
  assert (Hin : In c (candidates request))
    by (rewrite Hcs; apply in_or_app; right; left; reflexivity).
  pose proof (succeeded_in_bounds minimize self request Hv c r Hb Hin Hs) as Hx.
  destruct (candidate_valid request Hv c Hin) as [Hc Hp].
  pose proof (bounds_ordered (category_eqb (model_category (fst c)) RETENTION) _ _ Hc Hp)
    as (Hlo & _ & Hhi).
  exists c, r. simpl. split_ands; try assumption; try reflexivity; lra.
Qed.

Lemma offer_price_within_bounds_witness :
  exists resp,
    optimize_offers guess_solver optimizer request_retention = Ok resp /\
    exists c r,
      In c (candidates request_retention) /\
      succeeded guess_solver optimizer request_retention c r /\
      resp = response_of request_retention c r /\
      Spec.low (category_eqb (model_category (fst c)) RETENTION)
               (copcar request_retention) (price (snd c))
        <= resp_offer_price resp <=
      Spec.high (category_eqb (model_category (fst c)) RETENTION)
                (copcar request_retention) (price (snd c)) /\
      0 < resp_offer_price resp <= copcar request_retention.
Proof.
  destruct run_retention as [resp H]. exists resp. split; [exact H |].
  exact (offer_price_within_bounds guess_solver optimizer request_retention resp
           request_retention_valid guess_solver_in_bounds H).
Defined.

(** C8. With a validated request and a bounded solver (one that, on
    well-formed bounds, raises only if the objective does, and whose
    successful results lie within the bounds and carry the objective
    value), the call fails with the no-suitable-offer condition exactly
    when every candidate was skipped or reported as not successful; in
    every other case it returns one response, all of whose fields come from
    one successfully optimized candidate. *)
Theorem no_suitable_offer_iff
    (minimize : solver) (self : OfferOptimizer) (request : OptimizationRequest) :
  valid_request request ->
  solver_returns minimize ->
  solver_in_bounds minimize ->
  solver_value minimize ->
  (optimize_offers minimize self request = Raise NoSuitableOffer <->
   forall c, In c (candidates request) ->
     skipped request (fst c) (snd c) = true \/
     exists r, optimize_price minimize self request (fst c) (snd c) = Ok r /\
               success r = false) /\
  (optimize_offers minimize self request = Raise NoSuitableOffer \/
   exists c r,
     In c (candidates request) /\
     succeeded minimize self request c r /\
     optimize_offers minimize self request = Ok (response_of request c r)).
Proof.
  intros Hv Hret Hb Hval.
  destruct (loop_returns minimize self request Hv (candidates request) Best_init Hret
              (incl_refl _)) as [acc Hloop].
  pose proof (for_each_step_inv _ _ _ _ _ _ Hloop) as Hinv.
  destruct Hinv as [[-> Hall] | (pre & c & post & r & Hcs & Hs & -> & _)].
  - pose proof (optimize_offers_none _ _ _ Hloop) as Hnone.
    split; [| left; assumption]. split; [| intros _; assumption].
    intros _ c Hin.
    destruct (skipped request (fst c) (snd c)) eqn:Hskip; [left; reflexivity | right].
    destruct (optimize_price_returns minimize self request Hv c Hret Hin)
      as [r Hr].
    exists r. split; [assumption |].
    destruct (success r) eqn:Hok; [| reflexivity].
    assert (Hs : succeeded minimize self request c r) by (repeat split; assumption).
    pose proof (Hall c r Hin Hs) as Hle. simpl in Hle.
    rewrite (succeeded_finite minimize self request Hv c r Hb Hval Hin Hs) in Hle.
    discriminate.
  - pose proof (optimize_offers_some _ _ _ _ _ Hloop) as Hsome.
    assert (Hin : In c (candidates request))
      by (rewrite Hcs; apply in_or_app; right; left; reflexivity).
    split; [| right; exists c, r; auto].
    split; [rewrite Hsome; discriminate |].
    intros Hnone. exfalso.
    destruct Hs as (Hskip & Hr & Hok).
    destruct (Hnone c Hin) as [Habs | [r' [Hr' Hfail]]].
    + rewrite Habs in Hskip. discriminate.
    + rewrite Hr in Hr'. injection Hr' as <-. rewrite Hok in Hfail. discriminate.
Qed.

Lemma no_suitable_offer_iff_witness :
  ((optimize_offers guess_solver optimizer request_mixed = Raise NoSuitableOffer <->
    forall c, In c (candidates request_mixed) ->
      skipped request_mixed (fst c) (snd c) = true \/
      exists r, optimize_price guess_solver optimizer request_mixed (fst c) (snd c)
                = Ok r /\ success r = false) /\
   (optimize_offers guess_solver optimizer request_mixed = Raise NoSuitableOffer \/
    exists c r,
      In c (candidates request_mixed) /\
      succeeded guess_solver optimizer request_mixed c r /\
      optimize_offers guess_solver optimizer request_mixed =
      Ok (response_of request_mixed c r))) /\
  (exists resp, optimize_offers guess_solver optimizer request_mixed = Ok resp) /\
  optimize_offers stalled_solver optimizer request_retention = Raise NoSuitableOffer.
Proof.
  split; [| split].
  - exact (no_suitable_offer_iff guess_solver optimizer request_mixed
             request_mixed_valid guess_solver_returns guess_solver_in_bounds
             guess_solver_value).
  - destruct run_mixed as [resp [H _]]. exists resp. exact H.
  - apply (proj1 (no_suitable_offer_iff stalled_solver optimizer request_retention
                    request_retention_valid stalled_solver_returns
                    stalled_solver_in_bounds stalled_solver_value)).
    intros c [<- | []]. right. eexists. split; reflexivity.
Defined.

(** ** The process model against the functions of a snapshot *)

Lemma run_for_each_snapshot {A S : Type}
    (body_run : S -> A -> Run S) (body : OfferOptimizer -> S -> A -> res S)
    (l : list A) (s : S) (w : Process) :
  (forall s' a w', body_run s' a w' = (body (optimizer_object w') s' a, w')) ->
  run_for_each body_run l s w = (for_each (body (optimizer_object w)) l s, w).
Proof.
  intros Hbody. revert s. induction l as [| a l IH]; intros s; simpl; [reflexivity |].
  unfold run_bind. rewrite Hbody.
  destruct (body (optimizer_object w) s a) as [s1 | e]; simpl; [apply IH | reflexivity].
Qed.

Lemma shared_evaluate_offer_snapshot
    (price : R) (offer : Offer) (model : ModelInput) (copcar : R) (w : Process) :
  Shared.evaluate_offer price offer model copcar w =
  (evaluate_offer (optimizer_object w) price offer model copcar, w).
Proof.
  unfold Shared.evaluate_offer, evaluate_offer,
    Shared.calculate_retention_score, calculate_retention_score,
    Shared.sigmoid, sigmoid.
  destruct (category_eqb (model_category model) RETENTION);
    destruct (Rge_dec price copcar); try reflexivity;
    unfold run_bind, run_pure, self_attr, run_ret, bind, ret.
  - destruct (fdiv price copcar) as [q | e]; [| reflexivity].
    destruct (fdiv 1 (1 + exp (- (k (optimizer_object w) * (1 - q))))); reflexivity.
  - destruct (fdiv (conversion_rate offer * copcar) (py_max price 0.01)); reflexivity.
Qed.

Section Snapshot.

Variable minimize : solver.

Lemma shared_optimize_price_snapshot
    (request : OptimizationRequest) (model : ModelInput) (offer : Offer) (w : Process) :
  Shared.optimize_price minimize request model offer w =
  (optimize_price minimize (optimizer_object w) request model offer, w).
Proof.
  unfold Shared.optimize_price, optimize_price. cbv zeta. f_equal. f_equal.
  apply functional_extensionality. intros p.
  unfold run_bind. rewrite shared_evaluate_offer_snapshot.
  destruct (evaluate_offer (optimizer_object w) p offer model (copcar request));
    reflexivity.
Qed.

Lemma shared_consider_snapshot
    (request : OptimizationRequest) (model : ModelInput) (acc : Best) (offer : Offer)
    (w : Process) :
  Shared.consider minimize request model acc offer w =
  (consider minimize (optimizer_object w) request model acc offer, w).
Proof.
  unfold Shared.consider, consider.
  destruct (skipped request model offer); [reflexivity |].
  unfold run_bind. rewrite shared_optimize_price_snapshot.
  destruct (optimize_price minimize (optimizer_object w) request model offer) as [r | e];
    simpl; [| reflexivity].
  destruct (success r); [| reflexivity].
  destruct (xgtb (xneg (fun_ r)) (best_value acc)); reflexivity.
Qed.

Lemma shared_select_best_snapshot (request : OptimizationRequest) (w : Process) :
  Shared.select_best minimize request w =
  (select_best minimize (optimizer_object w) request, w).
Proof.
  unfold Shared.select_best, select_best.
  apply (run_for_each_snapshot
           (fun acc model =>
              run_for_each (Shared.consider minimize request model)
                           (available_offers model) acc)
           (fun self acc model =>
              for_each (consider minimize self request model) (available_offers model) acc)).
  intros acc model w'.
  apply (run_for_each_snapshot
           (Shared.consider minimize request model)
           (fun self => consider minimize self request model)).
  intros acc' offer w''. apply shared_consider_snapshot.
Qed.

Lemma shared_optimize_offers_body_snapshot (request : OptimizationRequest) (w : Process) :
  Shared.optimize_offers_body minimize request w =
  (optimize_offers_body minimize (optimizer_object w) request, w).
Proof.
  unfold Shared.optimize_offers_body, optimize_offers_body, run_bind.
  rewrite shared_select_best_snapshot.
  destruct (select_best minimize (optimizer_object w) request) as [acc | e]; simpl;
    [| reflexivity].
  destruct (best_offer acc); [| reflexivity].
  destruct (best_model acc); [| reflexivity].
  destruct (best_price acc); reflexivity.
Qed.

(** A call answers as the function of the request and of the optimizer
    object as it stands, and leaves that object as it found it; only the
    log grows, by one record when the call fails. *)
Lemma shared_optimize_offers_snapshot (request : OptimizationRequest) (w : Process) :
  fst (Shared.optimize_offers minimize request w) =
    optimize_offers minimize (optimizer_object w) request /\
  optimizer_object (snd (Shared.optimize_offers minimize request w)) = optimizer_object w /\
  (forall resp, fst (Shared.optimize_offers minimize request w) = Ok resp ->
                snd (Shared.optimize_offers minimize request w) = w) /\
  (forall e, fst (Shared.optimize_offers minimize request w) = Raise e ->
             logged (snd (Shared.optimize_offers minimize request w)) =
             logged w ++ ["Error in optimization for customer " ++
                          customer_id request ++ ": " ++ str_exn e]%string).
Proof.
  unfold Shared.optimize_offers, optimize_offers, run_try.
  rewrite shared_optimize_offers_body_snapshot.
  destruct (optimize_offers_body minimize (optimizer_object w) request) as [resp | e];
    simpl.
  - split; [reflexivity |]. split; [reflexivity |].
    split; [intros resp' _; reflexivity | intros e H; discriminate H].
  - split; [reflexivity |]. split; [reflexivity |].
    split; [intros resp' H; discriminate H |].
    intros e' H. injection H as <-. reflexivity.
Qed.

Lemma serve_keeps_optimizer (history : list OptimizationRequest) (w : Process) :
  optimizer_object (Shared.serve minimize history w) = optimizer_object w.
Proof.
  unfold Shared.serve. revert w. induction history as [| r history IH]; intros w; simpl;
    [reflexivity |].
  rewrite IH. unfold Shared.optimize_offer.
  apply (shared_optimize_offers_snapshot r w).
Qed.

End Snapshot.

(** C9. Calls are repeatable.  In a running process, whatever the state of
    the shared optimizer object and of the log, and whatever requests are
    served in between, a second call with the same request data and the
    same solver ends exactly as the first one did (the same response, in
    particular the same model_name, offer_name and offer_price, or the same
    failure): no call changes the optimizer object it is served by, the
    loop variables are local to the call, and the only state a call leaves
    behind, the error log, is never read. *)
Theorem optimize_offers_repeatable
    (minimize : solver) (w : Process) (request : OptimizationRequest)
    (between : list OptimizationRequest) :
  fst (Shared.optimize_offer minimize request
         (Shared.serve minimize between (snd (Shared.optimize_offer minimize request w)))) =
  fst (Shared.optimize_offer minimize request w) /\
  optimizer_object
    (Shared.serve minimize between (snd (Shared.optimize_offer minimize request w))) =
  optimizer_object w /\
  (forall resp1 resp2,
     fst (Shared.optimize_offer minimize request w) = Ok resp1 ->
     fst (Shared.optimize_offer minimize request
            (Shared.serve minimize between
               (snd (Shared.optimize_offer minimize request w)))) = Ok resp2 ->
     resp_model_name resp1 = resp_model_name resp2 /\
     resp_offer_name resp1 = resp_offer_name resp2 /\
     resp_offer_price resp1 = resp_offer_price resp2).
Proof.
  assert (Hobj : optimizer_object
                   (Shared.serve minimize between
                      (snd (Shared.optimize_offer minimize request w))) =
                 optimizer_object w).
  { rewrite serve_keeps_optimizer. unfold Shared.optimize_offer.
    apply (shared_optimize_offers_snapshot minimize request w). }
  assert (Hsame : fst (Shared.optimize_offer minimize request
                         (Shared.serve minimize between
                            (snd (Shared.optimize_offer minimize request w)))) =
                  fst (Shared.optimize_offer minimize request w)).
  { unfold Shared.optimize_offer at 1 3.
    rewrite (proj1 (shared_optimize_offers_snapshot minimize request _)).
    rewrite (proj1 (shared_optimize_offers_snapshot minimize request w)).
    rewrite Hobj. reflexivity. }
  split_ands; try assumption.
  intros resp1 resp2 H1 H2. rewrite Hsame, H1 in H2. injection H2 as <-. auto.
Qed.

Lemma run_all_infeasible :
  optimize_offers guess_solver optimizer request_all_infeasible = Raise NoSuitableOffer.
Proof. run_fixture. reflexivity. Qed.

Lemma optimize_offers_repeatable_witness :
  (fst (Shared.optimize_offer guess_solver request_retention
          (Shared.serve guess_solver [request_all_infeasible]
             (snd (Shared.optimize_offer guess_solver request_retention Process_init)))) =
   fst (Shared.optimize_offer guess_solver request_retention Process_init) /\
   optimizer_object
     (Shared.serve guess_solver [request_all_infeasible]
        (snd (Shared.optimize_offer guess_solver request_retention Process_init))) =
   optimizer_object Process_init /\
   (forall resp1 resp2,
      fst (Shared.optimize_offer guess_solver request_retention Process_init) = Ok resp1 ->
      fst (Shared.optimize_offer guess_solver request_retention
             (Shared.serve guess_solver [request_all_infeasible]
                (snd (Shared.optimize_offer guess_solver request_retention Process_init))))
      = Ok resp2 ->
      resp_model_name resp1 = resp_model_name resp2 /\
      resp_offer_name resp1 = resp_offer_name resp2 /\
      resp_offer_price resp1 = resp_offer_price resp2)) /\
  (exists resp,
     fst (Shared.optimize_offer guess_solver request_retention Process_init) = Ok resp) /\
  logged
    (Shared.serve guess_solver [request_all_infeasible]
       (snd (Shared.optimize_offer guess_solver request_retention Process_init))) =
  ["Error in optimization for customer CUST002: No suitable offer found"%string].
Proof.
  split; [| split].
  - exact (optimize_offers_repeatable guess_solver Process_init request_retention
             [request_all_infeasible]).
  - destruct run_retention as [resp H]. exists resp.
    unfold Shared.optimize_offer.
    rewrite (proj1 (shared_optimize_offers_snapshot guess_solver request_retention
                      Process_init)).
    exact H.
  - destruct run_retention as [resp H].
    assert (H1 : fst (Shared.optimize_offers guess_solver request_retention Process_init)
                 = Ok resp).
    { rewrite (proj1 (shared_optimize_offers_snapshot guess_solver request_retention
                        Process_init)). exact H. }
    destruct (shared_optimize_offers_snapshot guess_solver request_retention Process_init)
      as (_ & _ & Hkeep & _).
    unfold Shared.serve, Shared.optimize_offer. simpl fold_left.
    rewrite (Hkeep resp H1).
    destruct (shared_optimize_offers_snapshot guess_solver request_all_infeasible
                Process_init) as (Hfst & _ & _ & Hlog).
    rewrite (Hlog NoSuitableOffer); [reflexivity |].
    rewrite Hfst. exact run_all_infeasible.
Defined.

(** C10. Only retention offers are excluded up front.  An offer of a model
    of any other category whose catalog price is at least COPCAR is
    optimized like any other; when it is the only candidate and its
    optimization succeeds with a score above negative infinity, it is the
    selected offer, so the response carries a catalog price of at least
    COPCAR and an expected profit that is not positive. *)
Theorem non_retention_offer_above_copcar_selected
    (minimize : solver) (self : OfferOptimizer) (cid : string) (cc : R)
    (m : ModelInput) (o : Offer) :
  model_category m <> RETENTION ->
  available_offers m = [o] ->
  price o >= cc ->
  (exists r,
     optimize_price minimize self {| customer_id := cid; copcar := cc; models := [m] |} m o
       = Ok r /\
     success r = true /\ xgtb (score r) NegInf = true) ->
  skipped {| customer_id := cid; copcar := cc; models := [m] |} m o = false /\
  exists resp,
    optimize_offers minimize self {| customer_id := cid; copcar := cc; models := [m] |}
      = Ok resp /\
    resp_model_name resp = model_name m /\
    resp_offer_name resp = offer_name o /\
    resp_actual_offer_price resp = price o /\
    resp_actual_offer_price resp >= resp_copcar resp /\
    resp_expected_profit resp <= 0.
Proof.
  intros Hcat Hoffers Hprice (r & Hr & Hok & Hgt).
  assert (Hskip : skipped {| customer_id := cid; copcar := cc; models := [m] |} m o = false).
  { unfold skipped. apply category_eqb_neq in Hcat. rewrite Hcat. reflexivity. }
  split; [exact Hskip |].
  exists (response_of {| customer_id := cid; copcar := cc; models := [m] |} (m, o) r).
  split.
  - apply optimize_offers_some.
    unfold candidates. simpl models. simpl flat_map. rewrite Hoffers. simpl.
    unfold step, consider. simpl fst. simpl snd.
    rewrite Hskip, Hr. simpl bind. rewrite Hok.
    fold (score r). simpl best_value. rewrite Hgt. reflexivity.
  - simpl. split_ands; try reflexivity; lra.
Qed.

Lemma non_retention_offer_above_copcar_selected_witness :
  skipped request_growth_above (upsell_predictor [offer_120]) offer_120 = false /\
  exists resp,
    optimize_offers guess_solver optimizer request_growth_above = Ok resp /\
    resp_model_name resp = "upsell_predictor"%string /\
    resp_offer_name resp = "Growth Offer 1"%string /\
    resp_actual_offer_price resp = 120 /\
    resp_actual_offer_price resp >= resp_copcar resp /\
    resp_expected_profit resp <= 0.
Proof.
  apply (non_retention_offer_above_copcar_selected guess_solver optimizer "CUST004" 100
           (upsell_predictor [offer_120]) offer_120).
  - discriminate.
  - reflexivity.
  - simpl. lra.
  - exact request_growth_above_succeeds.
Defined.

(** Witnesses of the selection theorems on the fixtures. *)

Lemma optimize_offers_first_maximum_witness :
  exists resp,
    optimize_offers guess_solver optimizer request_tie = Ok resp /\
    resp_offer_name resp = "Growth Offer 1"%string /\
    exists pre c post r,
      candidates request_tie = pre ++ c :: post /\
      succeeded guess_solver optimizer request_tie c r /\
      resp = response_of request_tie c r /\
      (forall c' r', In c' (candidates request_tie) ->
                     succeeded guess_solver optimizer request_tie c' r' ->
                     xgtb (score r') (score r) = false) /\
      (forall c' r', In c' pre ->
                     succeeded guess_solver optimizer request_tie c' r' ->
                     xgtb (score r) (score r') = true).
Proof.
  destruct run_tie as [resp [H Hname]]. exists resp. split_ands; try assumption.
  exact (proj2 (optimize_offers_first_maximum guess_solver optimizer request_tie) resp H).
Defined.

Lemma excluded_retention_offer_never_selected_witness :
  ((forall acc,
      consider guess_solver optimizer request_mixed
        (churn_predictor [offer_250; offer_150]) acc offer_250 = Ok acc) /\
   (forall resp,
      optimize_offers guess_solver optimizer request_mixed = Ok resp ->
      exists c r,
        In c (candidates request_mixed) /\
        c <> (churn_predictor [offer_250; offer_150], offer_250) /\
        succeeded guess_solver optimizer request_mixed c r /\
        resp = response_of request_mixed c r)) /\
  (exists resp,
     optimize_offers guess_solver optimizer request_mixed = Ok resp /\
     resp_offer_name resp = "Retention Offer 1"%string).
Proof.
  split; [| exact run_mixed].
  apply (excluded_retention_offer_never_selected guess_solver optimizer request_mixed
           (churn_predictor [offer_250; offer_150]) offer_250).
  - reflexivity.
  - simpl. lra.
Defined.

Lemma expected_profit_identity_witness :
  exists resp,
    optimize_offers guess_solver optimizer request_retention = Ok resp /\
    resp_expected_profit resp = resp_copcar resp - resp_actual_offer_price resp /\
    resp_copcar resp = copcar request_retention /\
    exists c r,
      In c (candidates request_retention) /\
      succeeded guess_solver optimizer request_retention c r /\
      resp_actual_offer_price resp = price (snd c) /\
      resp_offer_name resp = offer_name (snd c) /\
      resp_offer_price resp = x r.
Proof.
  destruct run_retention as [resp H]. exists resp. split; [exact H |].
  exact (expected_profit_identity guess_solver optimizer request_retention resp H).
Defined.

(** * Further properties *)

(** ** The logistic curve and the objective *)

Lemma spec_sigmoid_range (t : R) : 0 < Spec.sigmoid t < 1.
Proof.
  unfold Spec.sigmoid. pose proof (exp_pos (- t)) as He.
  assert (Hd : (1 + exp (- t)) * / (1 + exp (- t)) = 1) by (apply Rinv_r; lra).
  assert (Hi : 0 < / (1 + exp (- t))) by (apply Rinv_0_lt_compat; lra).
  unfold Rdiv. rewrite Rmult_1_l. split; [assumption | nra].
Qed.

Lemma spec_sigmoid_increasing (s t : R) : s < t -> Spec.sigmoid s < Spec.sigmoid t.
Proof.
  intros Hst. unfold Spec.sigmoid.
  pose proof (exp_pos (- s)) as Hs. pose proof (exp_pos (- t)) as Ht.
  assert (Hexp : exp (- t) < exp (- s)) by (apply exp_increasing; lra).
  unfold Rdiv. rewrite !Rmult_1_l.
  apply Rinv_lt_contravar; [nra | lra].
Qed.

Lemma calculate_retention_score_eq (self : OfferOptimizer) (p c churn : R) :
  c <> 0 ->
  calculate_retention_score self p c churn =
  Ok ((1 - churn) * Spec.sigmoid (k self * (1 - p / c))).
Proof.
  intros Hc. unfold calculate_retention_score.
  rewrite fdiv_ok by assumption. simpl bind. rewrite sigmoid_ok. reflexivity.
Qed.

Lemma dilution_decreasing (c p1 p2 : R) : c > 0 -> p1 < p2 -> 1 - p2 / c < 1 - p1 / c.
Proof.
  intros Hc Hp. assert (Hi : 0 < / c) by (apply Rinv_0_lt_compat; lra).
  unfold Rdiv. nra.
Qed.

Lemma dilution_positive (c p : R) : c > 0 -> p < c -> 0 < 1 - p / c.
Proof.
  intros Hc Hp. assert (Hi : 0 < / c) by (apply Rinv_0_lt_compat; lra).
  assert (Hone : c * / c = 1) by (apply Rinv_r; lra).
  unfold Rdiv. nra.
Qed.

(** The objective of the module-level optimizer at a feasible price. *)
Lemma evaluate_offer_feasible (p : R) (o : Offer) (m : ModelInput) (c : R) :
  c > 0 -> p < c ->
  evaluate_offer optimizer p o m c =
  Ok (Fin (if category_eqb (model_category m) RETENTION
           then Spec.retention_value p o m c
           else Spec.default_value p o m c)).
Proof.
  intros Hc Hp. unfold evaluate_offer.
  destruct (category_eqb (model_category m) RETENTION);
    (destruct (Rge_dec p c) as [Hge | _]; [lra |]).
  - rewrite calculate_retention_score_eq by lra.
    rewrite fdiv_ok by lra. simpl bind. unfold ret. do 2 f_equal.
    unfold Spec.retention_value. simpl. ring.
  - rewrite fdiv_ok by (pose proof (py_max_floor p 0.01); lra).
    simpl bind. unfold ret. do 2 f_equal.
    unfold Spec.default_value. rewrite py_max_Rmax. simpl.
    assert (Rmax p 0.01 <> 0) by (pose proof (Rmax_r p 0.01); lra).
    field; assumption.
Qed.

Lemma retention_value_decreasing (o : Offer) (m : ModelInput) (c p1 p2 : R) :
  c > 0 -> conversion_rate o > 0 -> model_probability m >= 0 -> p1 < p2 ->
  Spec.retention_value p2 o m c < Spec.retention_value p1 o m c.
Proof.
  intros Hc Hconv Hprob Hp. unfold Spec.retention_value. cbv zeta.
  pose proof (dilution_decreasing c p1 p2 Hc Hp) as Hd.
  assert (Hs : Spec.sigmoid (5.0 * (1 - p2 / c)) < Spec.sigmoid (5.0 * (1 - p1 / c)))
    by (apply spec_sigmoid_increasing; lra).
  set (d1 := 1 - p1 / c) in *. set (d2 := 1 - p2 / c) in *.
  set (s1 := Spec.sigmoid (5.0 * d1)) in *. set (s2 := Spec.sigmoid (5.0 * d2)) in *.
  assert (Hterm : (1 - (1 - model_probability m)) * s2 * c <=
                  (1 - (1 - model_probability m)) * s1 * c).
  { apply Rmult_le_compat_r; [lra |]. apply Rmult_le_compat_l; lra. }
  assert (Hprofit : (c - p2) * conversion_rate o < (c - p1) * conversion_rate o)
    by (apply Rmult_lt_compat_r; lra).
  assert (Heff : conversion_rate o * d2 < conversion_rate o * d1)
    by (apply Rmult_lt_compat_l; lra).
  lra.
Qed.

Lemma retention_value_positive (o : Offer) (m : ModelInput) (c p : R) :
  c > 0 -> conversion_rate o > 0 -> model_probability m >= 0 -> p < c ->
  0 < Spec.retention_value p o m c.
Proof.
  intros Hc Hconv Hprob Hp. unfold Spec.retention_value. cbv zeta.
  pose proof (dilution_positive c p Hc Hp) as Hd.
  pose proof (spec_sigmoid_range (5.0 * (1 - p / c))) as [Hs _].
  set (d := 1 - p / c) in *. set (s := Spec.sigmoid (5.0 * d)) in *.
  assert (H1 : 0 < (c - p) * conversion_rate o) by (apply Rmult_lt_0_compat; lra).
  assert (H2 : 0 <= (1 - (1 - model_probability m)) * s * c).
  { apply Rmult_le_pos; [| lra]. apply Rmult_le_pos; lra. }
  assert (H3 : 0 < conversion_rate o * d) by (apply Rmult_lt_0_compat; lra).
  lra.
Qed.

Lemma efficiency_decreasing (a p1 p2 : R) :
  a > 0 -> p1 < p2 -> a / Rmax p2 0.01 <= a / Rmax p1 0.01.
Proof.
  intros Ha Hp.
  assert (H1 : 0 < Rmax p1 0.01) by (pose proof (Rmax_r p1 0.01); lra).
  assert (H2 : Rmax p1 0.01 <= Rmax p2 0.01).
  { apply Rmax_lub; [| apply Rmax_r]. apply Rle_trans with p2; [lra | apply Rmax_l]. }
  unfold Rdiv. apply Rmult_le_compat_l; [lra |].
  apply Rinv_le_contravar; assumption.
Qed.

Lemma default_value_decreasing (o : Offer) (m : ModelInput) (c p1 p2 : R) :
  c > 0 -> conversion_rate o > 0 -> p1 < p2 ->
  Spec.default_value p2 o m c < Spec.default_value p1 o m c.
Proof.
  intros Hc Hconv Hp. unfold Spec.default_value.
  assert (Ha : 0.3 * conversion_rate o * c > 0).
  { apply Rmult_lt_0_compat; [| lra]. lra. }
  pose proof (efficiency_decreasing _ p1 p2 Ha Hp) as He.
  assert (Hprofit : (c - p2) * conversion_rate o < (c - p1) * conversion_rate o)
    by (apply Rmult_lt_compat_r; lra).
  lra.
Qed.

Lemma default_value_positive (o : Offer) (m : ModelInput) (c p : R) :
  c > 0 -> conversion_rate o > 0 -> model_probability m >= 0 -> p < c ->
  0 < Spec.default_value p o m c.
Proof.
  intros Hc Hconv Hprob Hp. unfold Spec.default_value.
  assert (Ha : 0.3 * conversion_rate o * c > 0).
  { apply Rmult_lt_0_compat; [| lra]. lra. }
  assert (Hm : 0 < Rmax p 0.01) by (pose proof (Rmax_r p 0.01); lra).
  assert (He : 0 < 0.3 * conversion_rate o * c / Rmax p 0.01).
  { unfold Rdiv. apply Rmult_lt_0_compat; [lra |]. apply Rinv_0_lt_compat. assumption. }
  assert (H1 : 0 < (c - p) * conversion_rate o) by (apply Rmult_lt_0_compat; lra).
  lra.
Qed.

(** X1. [sigmoid] never raises, its value lies between 0 and 1, and it
    never decreases when its argument grows. *)
Theorem sigmoid_bounded_and_monotone (t u : R) :
  t <= u ->
  exists st su,
    sigmoid t = Ok st /\ sigmoid u = Ok su /\
    0 <= st /\ st <= su /\ su <= 1.
Proof.
  intros Htu. rewrite !sigmoid_ok.
  do 2 eexists. split; [reflexivity |]. split; [reflexivity |].
  pose proof (spec_sigmoid_range t) as [Ht _].
  pose proof (spec_sigmoid_range u) as [_ Hu].
  split_ands; try lra.
  destruct Htu as [Hlt | ->]; [| lra].
  left. apply spec_sigmoid_increasing. exact Hlt.
Qed.

Lemma sigmoid_bounded_and_monotone_witness :
  exists st su,
    sigmoid 0 = Ok st /\ sigmoid 1 = Ok su /\
    0 <= st /\ st <= su /\ su <= 1.
Proof. apply (sigmoid_bounded_and_monotone 0 1). lra. Defined.

(** X3. The retention score rewards dilution: with a positive COPCAR, a
    positive steepness and a churn probability of at most 1, the score
    never raises, lies between 0 and [1 - churn_prob], and does not grow
    when the price grows. *)
Theorem retention_score_rewards_dilution
    (self : OfferOptimizer) (p1 p2 c churn : R) :
  c > 0 -> k self > 0 -> churn <= 1 -> p1 <= p2 ->
  exists s1 s2,
    calculate_retention_score self p1 c churn = Ok s1 /\
    calculate_retention_score self p2 c churn = Ok s2 /\
    0 <= s2 /\ s2 <= s1 /\ s1 <= 1 - churn.
Proof.
  intros Hc Hk Hchurn Hp.
  rewrite !calculate_retention_score_eq by lra.
  do 2 eexists. split; [reflexivity |]. split; [reflexivity |].
  pose proof (spec_sigmoid_range (k self * (1 - p1 / c))) as [Hs1 Hs1'].
  pose proof (spec_sigmoid_range (k self * (1 - p2 / c))) as [Hs2 Hs2'].
  assert (Hmono : Spec.sigmoid (k self * (1 - p2 / c)) <=
                  Spec.sigmoid (k self * (1 - p1 / c))).
  { destruct Hp as [Hlt | ->]; [| lra].
    left. apply spec_sigmoid_increasing.
    apply Rmult_lt_compat_l; [lra |]. apply dilution_decreasing; assumption. }
  split_ands.
  - apply Rmult_le_pos; lra.
  - apply Rmult_le_compat_l; lra.
  - rewrite <- (Rmult_1_r (1 - churn)) at 2. apply Rmult_le_compat_l; lra.
Qed.

Lemma retention_score_rewards_dilution_witness :
  exists s1 s2,
    calculate_retention_score optimizer 100 200 0.2 = Ok s1 /\
    calculate_retention_score optimizer 150 200 0.2 = Ok s2 /\
    0 <= s2 /\ s2 <= s1 /\ s1 <= 1 - 0.2.
Proof.
  apply (retention_score_rewards_dilution optimizer 100 150 200 0.2); simpl; lra.
Defined.

Lemma feasible_value_monotone (o : Offer) (m : ModelInput) (c p1 p2 : R) :
  c > 0 -> conversion_rate o > 0 -> model_probability m >= 0 -> p1 <= p2 ->
  (if category_eqb (model_category m) RETENTION
   then Spec.retention_value p2 o m c else Spec.default_value p2 o m c) <=
  (if category_eqb (model_category m) RETENTION
   then Spec.retention_value p1 o m c else Spec.default_value p1 o m c).
Proof.
  intros Hc Hconv Hprob [Hlt | ->]; [| lra].
  left. destruct (category_eqb (model_category m) RETENTION).
  - apply retention_value_decreasing; assumption.
  - apply default_value_decreasing; assumption.
Qed.

(** X4. Below COPCAR the objective never rewards a higher price, in either
    category branch: of two feasible prices the cheaper one scores at least
    as high. *)
Theorem evaluate_offer_never_rewards_higher_price
    (o : Offer) (m : ModelInput) (c p1 p2 : R) :
  c > 0 -> conversion_rate o > 0 -> model_probability m >= 0 ->
  p1 <= p2 -> p2 < c ->
  exists v1 v2 : xfloat,
    evaluate_offer optimizer p1 o m c = Ok v1 /\
    evaluate_offer optimizer p2 o m c = Ok v2 /\
    xgtb v2 v1 = false.
Proof.
  intros Hc Hconv Hprob Hp Hp2.
  rewrite !evaluate_offer_feasible by lra.
  do 2 eexists. split; [reflexivity |]. split; [reflexivity |].
  pose proof (feasible_value_monotone o m c p1 p2 Hc Hconv Hprob Hp) as Hle.
  simpl. destruct (Rgt_dec _ _); [lra | reflexivity].
Qed.

Lemma evaluate_offer_never_rewards_higher_price_witness :
  exists v1 v2 : xfloat,
    evaluate_offer optimizer 100 offer_150 (churn_predictor []) 200 = Ok v1 /\
    evaluate_offer optimizer 150 offer_150 (churn_predictor []) 200 = Ok v2 /\
    xgtb v2 v1 = false.
Proof.
  apply (evaluate_offer_never_rewards_higher_price offer_150 (churn_predictor []) 200 100 150);
    simpl; lra.
Defined.

(** X5. At every feasible price (below a positive COPCAR) the objective is
    never below zero, in either category branch; in particular it is never
    the negative infinity that marks an infeasible price. *)
Theorem evaluate_offer_nonnegative_when_feasible
    (o : Offer) (m : ModelInput) (c p : R) :
  c > 0 -> conversion_rate o > 0 -> model_probability m >= 0 -> p < c ->
  exists v : xfloat,
    evaluate_offer optimizer p o m c = Ok v /\
    xgtb (Fin 0) v = false /\ v <> NegInf.
Proof.
  intros Hc Hconv Hprob Hp.
  rewrite evaluate_offer_feasible by lra.
  eexists. split; [reflexivity |].
  assert (Hpos : 0 < (if category_eqb (model_category m) RETENTION
                      then Spec.retention_value p o m c
                      else Spec.default_value p o m c)).
  { destruct (category_eqb (model_category m) RETENTION).
    - apply retention_value_positive; assumption.
    - apply default_value_positive; assumption. }
  split; [| discriminate].
  simpl. destruct (Rgt_dec _ _); [lra | reflexivity].
Qed.

Lemma evaluate_offer_nonnegative_when_feasible_witness :
  exists v : xfloat,
    evaluate_offer optimizer 72.5 offer_120 (upsell_predictor []) 100 = Ok v /\
    xgtb (Fin 0) v = false /\ v <> NegInf.
Proof.
  apply (evaluate_offer_nonnegative_when_feasible offer_120 (upsell_predictor []) 100 72.5);
    simpl; lra.
Defined.

(** X6. At a feasible price the objective never drops when the model's
    probability grows (category and offer fixed) nor when the offer's
    conversion rate grows (model fixed); two offers with the same
    conversion rate score the same, whatever their names, volumes and
    catalog prices. *)
Theorem evaluate_offer_monotone_in_inputs
    (o1 o2 : Offer) (m1 m2 : ModelInput) (c p : R) :
  c > 0 -> p < c ->
  model_category m1 = model_category m2 ->
  model_probability m1 >= 0 ->
  conversion_rate o1 > 0 ->
  exists v11 v12 v21 : xfloat,
    evaluate_offer optimizer p o1 m1 c = Ok v11 /\
    evaluate_offer optimizer p o1 m2 c = Ok v12 /\
    evaluate_offer optimizer p o2 m1 c = Ok v21 /\
    (model_probability m1 <= model_probability m2 -> xgtb v11 v12 = false) /\
    (conversion_rate o1 <= conversion_rate o2 -> xgtb v11 v21 = false) /\
    (conversion_rate o1 = conversion_rate o2 -> v11 = v21).
Proof.
  intros Hc Hp Hcat Hprob Hconv.
  rewrite !evaluate_offer_feasible by lra. rewrite <- Hcat.
  do 3 eexists. split; [reflexivity |]. split; [reflexivity |]. split; [reflexivity |].
  pose proof (dilution_positive c p Hc Hp) as Hd.
  pose proof (spec_sigmoid_range (5.0 * (1 - p / c))) as [Hs _].
  assert (Hm : 0 < Rmax p 0.01) by (pose proof (Rmax_r p 0.01); lra).
  assert (Hi : 0 < / Rmax p 0.01) by (apply Rinv_0_lt_compat; assumption).
  destruct (category_eqb (model_category m1) RETENTION);
    unfold Spec.retention_value, Spec.default_value; cbv zeta;
    set (d := 1 - p / c) in *; set (s := Spec.sigmoid (5.0 * d)) in *; simpl xgtb.
  - split_ands.
    + intros Hle. destruct (Rgt_dec _ _) as [Hgt | _]; [| reflexivity].
      exfalso. assert (s * c > 0) by (apply Rmult_lt_0_compat; lra). nra.
    + intros Hle. destruct (Rgt_dec _ _) as [Hgt | _]; [| reflexivity].
      exfalso.
      assert ((c - p) * conversion_rate o1 <= (c - p) * conversion_rate o2)
        by (apply Rmult_le_compat_l; lra).
      assert (conversion_rate o1 * d <= conversion_rate o2 * d)
        by (apply Rmult_le_compat_r; lra).
      lra.
    + intros ->. reflexivity.
  - split_ands.
    + intros Hle. destruct (Rgt_dec _ _) as [Hgt | _]; [lra | reflexivity].
    + intros Hle. destruct (Rgt_dec _ _) as [Hgt | _]; [| reflexivity].
      exfalso.
      assert ((c - p) * conversion_rate o1 <= (c - p) * conversion_rate o2)
        by (apply Rmult_le_compat_l; lra).
      assert (0 < c * / Rmax p 0.01) by (apply Rmult_lt_0_compat; lra).
      unfold Rdiv in Hgt. nra.
    + intros ->. reflexivity.
Qed.

Lemma evaluate_offer_monotone_in_inputs_witness :
  exists v11 v12 v21 : xfloat,
    evaluate_offer optimizer 100 offer_150 (churn_predictor []) 200 = Ok v11 /\
    evaluate_offer optimizer 100 offer_150
      {| model_name := "churn_predictor_v2"; model_probability := 0.9;
         model_category := RETENTION; available_offers := [] |} 200 = Ok v12 /\
    evaluate_offer optimizer 100 offer_120 (churn_predictor []) 200 = Ok v21 /\
    (0.8 <= 0.9 -> xgtb v11 v12 = false) /\
    (0.2 <= 0.25 -> xgtb v11 v21 = false) /\
    (0.2 = 0.25 -> v11 = v21).
Proof.
  apply (evaluate_offer_monotone_in_inputs offer_150 offer_120
           (churn_predictor [])
           {| model_name := "churn_predictor_v2"; model_probability := 0.9;
              model_category := RETENTION; available_offers := [] |} 200 100);
    simpl; try reflexivity; lra.
Defined.

(** ** Further properties of the selection *)

Lemma optimize_offers_inv
    (minimize : solver) (self : OfferOptimizer) (request : OptimizationRequest)
    (resp : OptimizationResponse) :
  optimize_offers minimize self request = Ok resp ->
  exists c r,
    for_each (step minimize self request) (candidates request) Best_init =
    Ok (recorded c r) /\
    In c (candidates request) /\
    succeeded minimize self request c r /\
    resp = response_of request c r.
Proof.
  unfold optimize_offers, optimize_offers_body. rewrite select_best_flat.
  destruct (for_each (step minimize self request) (candidates request) Best_init)
    as [acc | e] eqn:Hloop; simpl; [| discriminate].
  pose proof (for_each_step_inv _ _ _ _ _ _ Hloop) as Hinv.
  destruct Hinv as [[-> _] | (pre & c & post & r & Hcs & Hs & -> & _)];
    simpl; [discriminate |].
  intros H. injection H as <-.
  exists c, r. split_ands; try assumption; try reflexivity.
  rewrite Hcs. apply in_or_app. right. left. reflexivity.
Qed.

(** Shape of the bounds for positive COPCAR and catalog price. *)
Lemma price_bounds_proper_aux
    (request : OptimizationRequest) (m : ModelInput) (o : Offer) :
  copcar request > 0 -> price o > 0 ->
  0 < fst (price_bounds request m o) /\
  fst (price_bounds request m o) < snd (price_bounds request m o) /\
  snd (price_bounds request m o) < copcar request /\
  snd (price_bounds request m o) <= price o.
Proof.
  intros Hc Hp. unfold price_bounds, py_min.
  destruct (category_eqb (model_category m) RETENTION); simpl fst; simpl snd;
    repeat match goal with
           | |- context [Rlt_dec ?a ?b] => destruct (Rlt_dec a b)
           end; lra.
Qed.



Section Reported.

Variable minimize : solver.
Variable self : OfferOptimizer.
Variable request : OptimizationRequest.
Hypothesis request_ok : valid_request request.
Hypothesis in_bounds : solver_in_bounds minimize.

Lemma candidate_fields (c : ModelInput * Offer) :
  In c (candidates request) ->
  copcar request > 0 /\ price (snd c) > 0 /\ conversion_rate (snd c) > 0 /\
  model_probability (fst c) >= 0.
Proof.
  destruct c as [m o]. rewrite in_candidates. intros [Hm Ho].
  destruct request_ok as [Hc Hms].
  rewrite Forall_forall in Hms. destruct (Hms m Hm) as (Hprob & _ & Hos).
  rewrite Forall_forall in Hos. destruct (Hos o Ho) as (Hp & _ & Hconv & _).
  simpl. auto.
Qed.

(** A successful result lies within the bounds computed by the code. *)
Lemma succeeded_within (c : ModelInput * Offer) (r : OptimizeResult) :
  In c (candidates request) ->
  succeeded minimize self request c r ->
  fst (price_bounds request (fst c) (snd c)) <= x r <=
  snd (price_bounds request (fst c) (snd c)).
Proof.
  intros Hin (_ & Hr & Hok).
  destruct (candidate_fields c Hin) as (Hc & Hp & _).
  pose proof (price_bounds_proper_aux request (fst c) (snd c) Hc Hp) as (_ & Hlt & _).
  unfold optimize_price in Hr. cbv zeta in Hr.
  destruct (price_bounds request (fst c) (snd c)) as [lo hi] eqn:Hb.
  simpl fst in *. simpl snd in *.
  eapply in_bounds; [| exact Hr | exact Hok]. lra.
Qed.

(** With a solver that reports the objective value, the recorded score of a
    successful candidate is the objective at the returned price. *)
Lemma succeeded_score (c : ModelInput * Offer) (r : OptimizeResult) :
  solver_value minimize ->
  In c (candidates request) ->
  succeeded minimize self request c r ->
  x r < copcar request /\
  exists v,
    evaluate_offer self (x r) (snd c) (fst c) (copcar request) = Ok (Fin v) /\
    score r = Fin v.
Proof.
  intros Hval Hin Hs.
  pose proof (succeeded_within c r Hin Hs) as Hx.
  destruct Hs as (_ & Hr & Hok).
  destruct (candidate_fields c Hin) as (Hc & Hp & _).
  pose proof (price_bounds_proper_aux request (fst c) (snd c) Hc Hp) as (_ & Hlt & Hhi & _).
  assert (Hxc : x r < copcar request) by lra.
  split; [exact Hxc |].
  unfold optimize_price in Hr. cbv zeta in Hr.
  destruct (price_bounds request (fst c) (snd c)) as [lo hi] eqn:Hb.
  simpl fst in *. simpl snd in *.
  assert (Hord : lo <= hi) by lra.
  pose proof (Hval _ _ _ _ _ Hord Hr Hok) as Hfun. simpl in Hfun.
  destruct (evaluate_offer_cases self (x r) (snd c) (fst c) (copcar request) Hc)
    as [[Hge _] | [_ [v Hv]]]; [lra |].
  exists v. split; [exact Hv |].
  rewrite Hv in Hfun. simpl in Hfun. injection Hfun as Hfun.
  unfold score. rewrite <- Hfun. simpl. f_equal. ring.
Qed.

End Reported.

(** X8. With a validated request and a solver whose successful results lie
    within their bounds and carry the objective value, the [opt_profit] of
    every returned response is the objective of the selected candidate at
    the returned price, and is never below zero. *)
Theorem returned_opt_profit_is_objective
    (minimize : solver) (request : OptimizationRequest) (resp : OptimizationResponse) :
  valid_request request ->
  solver_in_bounds minimize ->
  solver_value minimize ->
  optimize_offers minimize optimizer request = Ok resp ->
  exists c (v : xfloat),
    In c (candidates request) /\
    resp_model_name resp = model_name (fst c) /\
    resp_offer_name resp = offer_name (snd c) /\
    evaluate_offer optimizer (resp_offer_price resp) (snd c) (fst c) (copcar request)
      = Ok v /\
    resp_opt_profit resp = v /\
    xgtb (Fin 0) v = false.
Proof.
  intros Hv Hb Hval H. apply optimize_offers_inv in H.
  destruct H as (c & r & _ & Hin & Hs & ->).
  destruct (succeeded_score minimize optimizer request Hv Hb c r Hval Hin Hs)
    as (Hx & v & Hev & Hscore).
  destruct (candidate_fields request Hv c Hin) as (Hc & _ & Hconv & Hprob).
  exists c, (Fin v). simpl. split_ands; try assumption; try reflexivity.
  rewrite evaluate_offer_feasible in Hev by assumption. injection Hev as <-.
  assert (Hpos : 0 < (if category_eqb (model_category (fst c)) RETENTION
                      then Spec.retention_value (x r) (snd c) (fst c) (copcar request)
                      else Spec.default_value (x r) (snd c) (fst c) (copcar request))).
  { destruct (category_eqb (model_category (fst c)) RETENTION).
    - apply retention_value_positive; assumption.
    - apply default_value_positive; assumption. }
  destruct (Rgt_dec _ _); [lra | reflexivity].
Qed.

Lemma returned_opt_profit_is_objective_witness :
  exists resp,
    optimize_offers guess_solver optimizer request_retention = Ok resp /\
    exists c (v : xfloat),
      In c (candidates request_retention) /\
      resp_model_name resp = model_name (fst c) /\
      resp_offer_name resp = offer_name (snd c) /\
      evaluate_offer optimizer (resp_offer_price resp) (snd c) (fst c)
        (copcar request_retention) = Ok v /\
      resp_opt_profit resp = v /\
      xgtb (Fin 0) v = false.
Proof.
  destruct run_retention as [resp H]. exists resp. split; [exact H |].
  exact (returned_opt_profit_is_objective guess_solver request_retention resp
           request_retention_valid guess_solver_in_bounds guess_solver_value H).
Defined.

(** X9. With a validated request and a solver whose successful results lie
    within their bounds, the optimized price of a returned response never
    exceeds the catalog price of the selected offer and leaves a margin of
    at least 5% of COPCAR, and of at least 10% when the selected model is a
    retention model. *)
Theorem optimized_price_leaves_margin
    (minimize : solver) (self : OfferOptimizer) (request : OptimizationRequest)
    (resp : OptimizationResponse) :
  valid_request request ->
  solver_in_bounds minimize ->
  optimize_offers minimize self request = Ok resp ->
  resp_offer_price resp <= resp_actual_offer_price resp /\
  resp_copcar resp - resp_offer_price resp >= 0.05 * resp_copcar resp /\
  exists c,
    In c (candidates request) /\
    resp_model_name resp = model_name (fst c) /\
    resp_offer_name resp = offer_name (snd c) /\
    (model_category (fst c) = RETENTION ->
     resp_copcar resp - resp_offer_price resp >= 0.1 * resp_copcar resp).
Proof.
  intros Hv Hb H. apply optimize_offers_inv in H.
  destruct H as (c & r & _ & Hin & Hs & ->).
  pose proof (succeeded_within minimize self request Hv Hb c r Hin Hs) as Hx.
  destruct (candidate_fields request Hv c Hin) as (Hc & Hp & _).
  simpl.
  assert (Hcap : snd (price_bounds request (fst c) (snd c)) <= price (snd c) /\
                 snd (price_bounds request (fst c) (snd c)) <= 0.95 * copcar request /\
                 (model_category (fst c) = RETENTION ->
                  snd (price_bounds request (fst c) (snd c)) <= 0.9 * copcar request)).
  { unfold price_bounds, py_min.
    destruct (category_eqb (model_category (fst c)) RETENTION) eqn:Hcat; simpl snd;
      repeat match goal with
             | |- context [Rlt_dec ?a ?b] => destruct (Rlt_dec a b)
             end;
      split_ands; try lra;
      intros Hret; apply category_eqb_eq in Hret; rewrite Hret in Hcat; discriminate. }
  destruct Hcap as (Hcat_price & H95 & H90).
  split_ands; try lra.
  exists c. split_ands; try assumption; try reflexivity.
  intros Hret. specialize (H90 Hret). lra.
Qed.

Lemma optimized_price_leaves_margin_witness :
  exists resp,
    optimize_offers guess_solver optimizer request_retention = Ok resp /\
    resp_offer_price resp <= resp_actual_offer_price resp /\
    resp_copcar resp - resp_offer_price resp >= 0.05 * resp_copcar resp /\
    exists c,
      In c (candidates request_retention) /\
      resp_model_name resp = model_name (fst c) /\
      resp_offer_name resp = offer_name (snd c) /\
      (model_category (fst c) = RETENTION ->
       resp_copcar resp - resp_offer_price resp >= 0.1 * resp_copcar resp).
Proof.
  destruct run_retention as [resp H]. exists resp. split; [exact H |].
  exact (optimized_price_leaves_margin guess_solver optimizer request_retention resp
           request_retention_valid guess_solver_in_bounds H).
Defined.

(** X10. Whatever the solver, a returned response whose selected model is a
    retention model has a strictly positive expected profit. *)
Theorem retention_result_has_positive_expected_profit
    (minimize : solver) (self : OfferOptimizer) (request : OptimizationRequest)
    (resp : OptimizationResponse) :
  optimize_offers minimize self request = Ok resp ->
  exists c,
    In c (candidates request) /\
    resp_model_name resp = model_name (fst c) /\
    resp_offer_name resp = offer_name (snd c) /\
    resp_actual_offer_price resp = price (snd c) /\
    (model_category (fst c) = RETENTION -> resp_expected_profit resp > 0).
Proof.
  intros H. apply optimize_offers_inv in H.
  destruct H as (c & r & _ & Hin & Hs & ->).
  exists c. simpl. split_ands; try assumption; try reflexivity.
  intros Hret. destruct Hs as (Hskip & _).
  unfold skipped in Hskip. apply category_eqb_eq in Hret. rewrite Hret in Hskip.
  simpl in Hskip.
  destruct (Rge_dec (price (snd c)) (copcar request)); [discriminate | lra].
Qed.

Lemma retention_result_has_positive_expected_profit_witness :
  exists resp,
    optimize_offers guess_solver optimizer request_mixed = Ok resp /\
    exists c,
      In c (candidates request_mixed) /\
      resp_model_name resp = model_name (fst c) /\
      resp_offer_name resp = offer_name (snd c) /\
      resp_actual_offer_price resp = price (snd c) /\
      (model_category (fst c) = RETENTION -> resp_expected_profit resp > 0).
Proof.
  destruct run_mixed as [resp [H _]]. exists resp. split; [exact H |].
  exact (retention_result_has_positive_expected_profit guess_solver optimizer
           request_mixed resp H).
Defined.

(** X11. Whatever the solver and whether or not the request is validated:
    when every candidate is skipped or reported as not successful (in
    particular when the request has no model, or no model has an offer) the
    call fails with the no-suitable-offer error. *)
Theorem nothing_successful_no_suitable_offer
    (minimize : solver) (self : OfferOptimizer) (request : OptimizationRequest) :
  (forall m o, In m (models request) -> In o (available_offers m) ->
     skipped request m o = true \/
     exists r, optimize_price minimize self request m o = Ok r /\ success r = false) ->
  optimize_offers minimize self request = Raise NoSuitableOffer.
Proof.
  intros H. apply optimize_offers_none. apply loop_nothing_recorded.
  intros [m o] Hin. apply in_candidates in Hin. destruct Hin as [Hm Ho].
  simpl. apply H; assumption.
Qed.

Lemma nothing_successful_no_suitable_offer_witness :
  optimize_offers stalled_solver optimizer request_mixed = Raise NoSuitableOffer.
Proof.
  apply nothing_successful_no_suitable_offer.
  intros m o [<- | []] [<- | [<- | []]].
  - left. unfold skipped. simpl. destruct (Rge_dec 250 200); [reflexivity | lra].
  - right. eexists. split; reflexivity.
Defined.

(** ** Failures *)

(** A pass that raises does so at the first candidate whose solver call
    raises. *)
Lemma loop_raise
    (minimize : solver) (self : OfferOptimizer) (request : OptimizationRequest)
    (cs : list (ModelInput * Offer)) (acc : Best) (e : exn) :
  for_each (step minimize self request) cs acc = Raise e ->
  exists c,
    In c cs /\ skipped request (fst c) (snd c) = false /\
    optimize_price minimize self request (fst c) (snd c) = Raise e.
Proof.
  revert acc. induction cs as [| c cs IH]; intros acc H; simpl in H; [discriminate |].
  destruct (step minimize self request acc c) as [acc1 | e1] eqn:Hstep; simpl in H.
  - destruct (IH acc1 H) as (c' & Hin & Hc'). exists c'. split; [right; assumption | exact Hc'].
  - injection H as ->. exists c. split; [left; reflexivity |].
    unfold step, consider in Hstep.
    destruct (skipped request (fst c) (snd c)); [discriminate |].
    split; [reflexivity |].
    destruct (optimize_price minimize self request (fst c) (snd c)) as [r | e2];
      simpl in Hstep.
    + destruct (success r); [destruct (xgtb _ _) |]; discriminate.
    + injection Hstep as ->. reflexivity.
Qed.

(** A pass over candidates none of which raises returns. *)
Lemma loop_returns_if_no_raise
    (minimize : solver) (self : OfferOptimizer) (request : OptimizationRequest)
    (cs : list (ModelInput * Offer)) (acc : Best) :
  (forall c, In c cs ->
     skipped request (fst c) (snd c) = true \/
     exists r, optimize_price minimize self request (fst c) (snd c) = Ok r) ->
  exists acc', for_each (step minimize self request) cs acc = Ok acc'.
Proof.
  revert acc. induction cs as [| c cs IH]; intros acc H; simpl.
  - eexists. reflexivity.
  - assert (Hstep : exists acc1, step minimize self request acc c = Ok acc1).
    { unfold step, consider.
      destruct (H c (or_introl eq_refl)) as [-> | [r Hr]]; [eexists; reflexivity |].
      destruct (skipped request (fst c) (snd c)); [eexists; reflexivity |].
      rewrite Hr. simpl.
      destruct (success r); [destruct (xgtb _ _) |]; eexists; reflexivity. }
    destruct Hstep as [acc1 ->]. simpl. apply IH.
    intros c' Hc'. apply H. right. assumption.
Qed.

(** X12. The call fails in two ways only, both as an HTTP 500: with the
    no-suitable-offer error, or with the message of an exception that the
    solver call of some optimized candidate raised.  In particular the
    three loop variables are always set together, so assembling the
    response never fails. *)
Theorem failure_is_no_offer_or_solver_exception
    (minimize : solver) (self : OfferOptimizer) (request : OptimizationRequest) (e : exn) :
  optimize_offers minimize self request = Raise e ->
  e = NoSuitableOffer \/
  exists c e',
    In c (candidates request) /\
    skipped request (fst c) (snd c) = false /\
    optimize_price minimize self request (fst c) (snd c) = Raise e' /\
    e = HTTPException 500 (str_exn e').
Proof.
  unfold optimize_offers, optimize_offers_body. rewrite select_best_flat.
  destruct (for_each (step minimize self request) (candidates request) Best_init)
    as [acc | e1] eqn:Hloop; simpl.
  - pose proof (for_each_step_inv _ _ _ _ _ _ Hloop) as Hinv.
    destruct Hinv as [[-> _] | (pre & c & post & r & _ & _ & -> & _)]; simpl.
    + intros H. injection H as <-. left. reflexivity.
    + discriminate.
  - intros H. injection H as <-. right.
    destruct (loop_raise _ _ _ _ _ _ Hloop) as (c & Hin & Hskip & Hr).
    exists c, e1. auto.
Qed.

Lemma failure_is_no_offer_or_solver_exception_witness :
  HTTPException 500 "Objective function must return a scalar" = NoSuitableOffer \/
  exists c e',
    In c (candidates request_retention) /\
    skipped request_retention (fst c) (snd c) = false /\
    optimize_price broken_solver optimizer request_retention (fst c) (snd c) = Raise e' /\
    HTTPException 500 "Objective function must return a scalar" =
    HTTPException 500 (str_exn e').
Proof.
  apply (failure_is_no_offer_or_solver_exception broken_solver optimizer request_retention).
  unfold optimize_offers, optimize_offers_body, select_best. simpl.
  unfold consider, skipped. simpl.
  destruct (Rge_dec 150 200); [exfalso; lra | reflexivity].
Defined.

(** X13. An exception raised by the solver call of a candidate aborts the
    whole call with an HTTP 500 carrying that exception's message, provided
    no earlier candidate raised; candidates recorded before it are
    discarded, and candidates after it are not looked at. *)
Theorem solver_exception_aborts_call
    (minimize : solver) (self : OfferOptimizer) (request : OptimizationRequest)
    (pre post : list (ModelInput * Offer)) (c : ModelInput * Offer) (e : exn) :
  candidates request = pre ++ c :: post ->
  (forall c', In c' pre ->
     skipped request (fst c') (snd c') = true \/
     exists r, optimize_price minimize self request (fst c') (snd c') = Ok r) ->
  skipped request (fst c) (snd c) = false ->
  optimize_price minimize self request (fst c) (snd c) = Raise e ->
  optimize_offers minimize self request = Raise (HTTPException 500 (str_exn e)).
Proof.
  intros Hcs Hpre Hskip Hr.
  unfold optimize_offers, optimize_offers_body. rewrite select_best_flat, Hcs.
  rewrite for_each_app.
  destruct (loop_returns_if_no_raise minimize self request pre Best_init Hpre)
    as [acc ->].
  simpl. unfold step at 1. unfold consider. rewrite Hskip, Hr. reflexivity.
Qed.

Lemma solver_exception_aborts_call_witness :
  optimize_offers fussy_solver optimizer request_two_offers =
  Raise (HTTPException 500 "Positive directional derivative for linesearch").
Proof.
  apply (solver_exception_aborts_call fussy_solver optimizer request_two_offers
           [(churn_predictor [offer_120; offer_150], offer_120)] []
           (churn_predictor [offer_120; offer_150], offer_150)
           (ValueError "Positive directional derivative for linesearch")).
  - reflexivity.
  - intros c' [<- | []]. right.
    unfold optimize_price, fussy_solver, request_two_offers. run_fixture.
    eexists. reflexivity.
  - unfold request_two_offers. run_fixture. reflexivity.
  - unfold optimize_price, fussy_solver, request_two_offers. run_fixture. reflexivity.
Defined.

(** ** Growing a request *)

Lemma candidates_with_more_models (request : OptimizationRequest) (extra : list ModelInput) :
  candidates (with_more_models request extra) =
  candidates request ++
  flat_map (fun m => map (pair m) (available_offers m)) extra.
Proof. unfold candidates. simpl. apply flat_map_app. Qed.

(** X14. Appending models to a request that returns (same customer, same
    COPCAR) has one of three outcomes: the response is exactly as it was;
    or the selection is replaced by an offer of an appended model whose
    score is strictly greater; or the solver call of an appended candidate
    raises and the call fails with an HTTP 500 carrying that message.  So
    when the enlarged call returns, [opt_profit] has not gone down and ties
    keep the earlier selection. *)
Theorem appending_models_outcomes
    (minimize : solver) (self : OfferOptimizer) (request : OptimizationRequest)
    (extra : list ModelInput) (resp : OptimizationResponse) :
  optimize_offers minimize self request = Ok resp ->
  optimize_offers minimize self (with_more_models request extra) = Ok resp \/
  (exists resp' m o,
     optimize_offers minimize self (with_more_models request extra) = Ok resp' /\
     xgtb (resp_opt_profit resp') (resp_opt_profit resp) = true /\
     In m extra /\ In o (available_offers m) /\
     resp_model_name resp' = model_name m /\
     resp_offer_name resp' = offer_name o) \/
  (exists m o e,
     In m extra /\ In o (available_offers m) /\
     skipped request m o = false /\
     optimize_price minimize self request m o = Raise e /\
     optimize_offers minimize self (with_more_models request extra) =
     Raise (HTTPException 500 (str_exn e))).
Proof.
  intros H.
  apply optimize_offers_inv in H. destruct H as (c & r & Hloop & _ & _ & ->).
  assert (Hext : for_each (step minimize self (with_more_models request extra))
                   (candidates (with_more_models request extra)) Best_init =
                 for_each (step minimize self request)
                   (flat_map (fun m => map (pair m) (available_offers m)) extra)
                   (recorded c r)).
  { rewrite candidates_with_more_models, for_each_app.
    change (step minimize self (with_more_models request extra))
      with (step minimize self request).
    rewrite Hloop. reflexivity. }
  assert (Hextra : forall c0,
            In c0 (flat_map (fun m => map (pair m) (available_offers m)) extra) ->
            In (fst c0) extra /\ In (snd c0) (available_offers (fst c0))).
  { intros [m o] Hin. apply in_flat_map in Hin. destruct Hin as (m1 & Hm1 & Ho1).
    apply in_map_iff in Ho1. destruct Ho1 as (o1 & E & Ho1). injection E as -> ->.
    simpl. auto. }
  destruct (for_each (step minimize self request)
              (flat_map (fun m => map (pair m) (available_offers m)) extra)
              (recorded c r)) as [acc | e] eqn:Htail.
  - apply for_each_step_inv in Htail.
    destruct Htail as [[-> _] | (pre & c0 & post & r0 & Hcs & Hs & -> & Hgt & _)].
    + left. apply (optimize_offers_some minimize self (with_more_models request extra) c r).
      exact Hext.
    + right. left.
      exists (response_of (with_more_models request extra) c0 r0), (fst c0), (snd c0).
      assert (Hin : In c0 (flat_map (fun m => map (pair m) (available_offers m)) extra))
        by (rewrite Hcs; apply in_or_app; right; left; reflexivity).
      destruct (Hextra c0 Hin) as [Hm Ho].
      split_ands; try assumption; try reflexivity.
      apply optimize_offers_some. exact Hext.
  - right. right.
    destruct (loop_raise _ _ _ _ _ _ Htail) as (c0 & Hin & Hskip & Hr).
    destruct (Hextra c0 Hin) as [Hm Ho].
    exists (fst c0), (snd c0), e. split_ands; try assumption.
    unfold optimize_offers, optimize_offers_body. rewrite select_best_flat, Hext.
    reflexivity.
Qed.

Lemma run_growth_pair :
  exists resp resp',
    optimize_offers guess_solver optimizer request_growth_above = Ok resp /\
    optimize_offers guess_solver optimizer
      (with_more_models request_growth_above [upsell_predictor [offer_120_twin]])
    = Ok resp'.
Proof.
  unfold with_more_models. cbv [app request_growth_above models customer_id copcar].
  run_fixture. do 2 eexists. split; reflexivity.
Qed.

Lemma appending_models_outcomes_witness :
  exists resp,
    optimize_offers guess_solver optimizer request_growth_above = Ok resp /\
    (optimize_offers guess_solver optimizer
       (with_more_models request_growth_above [upsell_predictor [offer_120_twin]])
     = Ok resp \/
     (exists resp' m o,
        optimize_offers guess_solver optimizer
          (with_more_models request_growth_above [upsell_predictor [offer_120_twin]])
        = Ok resp' /\
        xgtb (resp_opt_profit resp') (resp_opt_profit resp) = true /\
        In m [upsell_predictor [offer_120_twin]] /\ In o (available_offers m) /\
        resp_model_name resp' = model_name m /\
        resp_offer_name resp' = offer_name o) \/
     (exists m o e,
        In m [upsell_predictor [offer_120_twin]] /\ In o (available_offers m) /\
        skipped request_growth_above m o = false /\
        optimize_price guess_solver optimizer request_growth_above m o = Raise e /\
        optimize_offers guess_solver optimizer
          (with_more_models request_growth_above [upsell_predictor [offer_120_twin]]) =
        Raise (HTTPException 500 (str_exn e)))).
Proof.
  destruct run_growth_pair as (resp & _ & H & _).
  exists resp. split; [exact H |].
  exact (appending_models_outcomes guess_solver optimizer request_growth_above
           [upsell_predictor [offer_120_twin]] resp H).
Defined.

(** ** Reordering a request *)

Lemma xgtb_antisym (a b : xfloat) : xgtb a b = false -> xgtb b a = false -> a = b.
Proof. intros H1 H2. xorder. f_equal. lra. Qed.

(** A pass that returns met no raising candidate. *)
Lemma loop_ok_no_raise
    (minimize : solver) (self : OfferOptimizer) (request : OptimizationRequest)
    (cs : list (ModelInput * Offer)) (acc acc' : Best) :
  for_each (step minimize self request) cs acc = Ok acc' ->
  forall c, In c cs ->
    skipped request (fst c) (snd c) = true \/
    exists r, optimize_price minimize self request (fst c) (snd c) = Ok r.
Proof.
  revert acc. induction cs as [| c0 cs IH]; intros acc H c Hin; [destruct Hin |].
  simpl in H. apply bind_ok in H. destruct H as (acc1 & Hstep & Hrest).
  destruct Hin as [<- | Hin]; [| eapply IH; eassumption].
  apply step_cases in Hstep.
  destruct Hstep as [[_ Hs] | [(r & (_ & Hr & _) & _) | (_ & _ & r & Hr & _)]].
  - left. exact Hs.
  - right. exists r. exact Hr.
  - right. exists r. exact Hr.
Qed.

(** X19. The order of the models does not change whether the call returns
    nor the [opt_profit] it returns: for a request whose models are a
    permutation of another's (same customer, same COPCAR), if one call
    returns then so does the other, with the same [opt_profit]; only the
    choice among equally scored candidates can differ. *)
Theorem model_order_keeps_opt_profit
    (minimize : solver) (self : OfferOptimizer) (request : OptimizationRequest)
    (ms : list ModelInput) (resp : OptimizationResponse) :
  Permutation (models request) ms ->
  optimize_offers minimize self request = Ok resp ->
  exists resp',
    optimize_offers minimize self (with_models request ms) = Ok resp' /\
    resp_opt_profit resp' = resp_opt_profit resp.
Proof.
  intros Hperm H.
  assert (Hcs : Permutation (candidates request) (candidates (with_models request ms))).
  { unfold candidates. simpl. apply Permutation_flat_map. exact Hperm. }
  apply optimize_offers_inv in H. destruct H as (c & r & Hloop & Hin & Hs & ->).
  pose proof (for_each_step_inv _ _ _ _ _ _ Hloop) as Hinv.
  destruct Hinv as [[Habs _] | (pre & c1 & post & r1 & Hsplit & Hs1 & Heq & Hgt1 & Hpre & Hpost)];
    [discriminate Habs |].
  assert (Hr1 : score r1 = score r) by (injection Heq as Hv _ _ _; symmetry; exact Hv).
  assert (Hmax : forall c' r', In c' (candidates request) ->
                   succeeded minimize self request c' r' ->
                   xgtb (score r') (score r) = false).
  { intros c' r' Hin' Hs'. rewrite <- Hr1. rewrite Hsplit in Hin'.
    apply in_app_or in Hin'. destruct Hin' as [Hp | [<- | Hp]].
    - apply xgtb_asym. eapply Hpre; eassumption.
    - destruct Hs1 as (_ & Ha & _). destruct Hs' as (_ & Hb & _).
      rewrite Ha in Hb. injection Hb as <-. apply xgtb_irrefl.
    - eapply Hpost; eassumption. }
  assert (Hreturns : exists acc2,
            for_each (step minimize self request)
                     (candidates (with_models request ms)) Best_init = Ok acc2).
  { apply loop_returns_if_no_raise. intros c' Hin'.
    apply (loop_ok_no_raise _ _ _ _ _ _ Hloop).
    apply Permutation_in with (l := candidates (with_models request ms));
      [apply Permutation_sym; exact Hcs | exact Hin']. }
  destruct Hreturns as [acc2 Hloop2].
  pose proof (for_each_step_inv _ _ _ _ _ _ Hloop2) as Hinv2.
  destruct Hinv2 as [[-> Hnone] | (pre2 & c2 & post2 & r2 & Hsplit2 & Hs2 & -> & Hgt2 & Hpre2 & Hpost2)].
  - exfalso.
    assert (Hin2 : In c (candidates (with_models request ms)))
      by (apply Permutation_in with (l := candidates request); assumption).
    pose proof (Hnone c r Hin2 Hs) as Hle. simpl in Hle.
    rewrite <- Hr1 in Hle. simpl in Hgt1. rewrite Hgt1 in Hle. discriminate.
  - exists (response_of (with_models request ms) c2 r2). split.
    + apply optimize_offers_some.
      change (step minimize self (with_models request ms))
        with (step minimize self request). exact Hloop2.
    + simpl. apply xgtb_antisym.
      * apply (Hmax c2 r2); [| exact Hs2].
        apply Permutation_in with (l := candidates (with_models request ms));
          [apply Permutation_sym; exact Hcs |].
        rewrite Hsplit2. apply in_or_app. right. left. reflexivity.
      * assert (Hin2 : In c (candidates (with_models request ms)))
          by (apply Permutation_in with (l := candidates request); assumption).
        rewrite Hsplit2 in Hin2. apply in_app_or in Hin2.
        destruct Hin2 as [Hp | [<- | Hp]].
        -- apply xgtb_asym. eapply Hpre2; eassumption.
        -- destruct Hs2 as (_ & Ha & _). destruct Hs as (_ & Hb & _).
           rewrite Ha in Hb. injection Hb as <-. apply xgtb_irrefl.
        -- eapply Hpost2; eassumption.
Qed.

Lemma run_two_models :
  exists resp, optimize_offers guess_solver optimizer request_two_models = Ok resp.
Proof. unfold request_two_models. run_fixture. eexists. reflexivity. Qed.

Lemma model_order_keeps_opt_profit_witness :
  exists resp resp',
    optimize_offers guess_solver optimizer request_two_models = Ok resp /\
    optimize_offers guess_solver optimizer
      (with_models request_two_models
         [upsell_predictor [offer_120_twin]; upsell_predictor [offer_120]]) = Ok resp' /\
    resp_opt_profit resp' = resp_opt_profit resp.
Proof.
  destruct run_two_models as [resp H].
  destruct (model_order_keeps_opt_profit guess_solver optimizer request_two_models
              [upsell_predictor [offer_120_twin]; upsell_predictor [offer_120]] resp
              (perm_swap _ _ []) H) as (resp' & H' & Heq).
  exists resp, resp'. split_ands; assumption.
Defined.

(** X20. The [max(price, 0.01)] guard caps the efficiency term of the
    non-retention branch: at any price below a positive COPCAR the
    objective is at most the profit term plus [30 * conversion_rate * copcar]
    plus the probability term; the cap is attained at every price up to
    0.01, and from 0.01 on the term is [0.3 * conversion_rate * copcar / price]. *)
Theorem efficiency_term_capped (o : Offer) (m : ModelInput) (c p : R) :
  model_category m <> RETENTION ->
  c > 0 -> conversion_rate o > 0 -> p < c ->
  exists v,
    evaluate_offer optimizer p o m c = Ok (Fin v) /\
    v <= (c - p) * conversion_rate o + 30 * conversion_rate o * c +
         0.5 * model_probability m /\
    (p <= 0.01 ->
     v = (c - p) * conversion_rate o + 30 * conversion_rate o * c +
         0.5 * model_probability m) /\
    (0.01 <= p ->
     v = (c - p) * conversion_rate o + 0.3 * conversion_rate o * c / p +
         0.5 * model_probability m).
Proof.
  intros Hcat Hc Hconv Hp. apply category_eqb_neq in Hcat.
  unfold evaluate_offer. rewrite Hcat.
  destruct (Rge_dec p c) as [Hge | _]; [lra |].
  pose proof (py_max_floor p 0.01) as Hfloor.
  rewrite fdiv_ok by lra. simpl bind.
  eexists. split; [reflexivity |]. simpl.
  assert (Ha : 0 < conversion_rate o * c) by (apply Rmult_lt_0_compat; lra).
  assert (Hinv : / py_max p 0.01 <= / 0.01)
    by (apply Rinv_le_contravar; lra).
  assert (Hhundred : / 0.01 = 100) by (field_simplify; lra).
  split_ands.
  - unfold Rdiv.
    assert (conversion_rate o * c * / py_max p 0.01 <= conversion_rate o * c * 100)
      by (rewrite <- Hhundred; apply Rmult_le_compat_l; lra).
    lra.
  - intros Hle. unfold py_max. destruct (Rgt_dec 0.01 p) as [_ | Hn].
    + unfold Rdiv. rewrite Hhundred. lra.
    + assert (p = 0.01) by lra. subst p. unfold Rdiv. rewrite Hhundred. lra.
  - intros Hle. unfold py_max. destruct (Rgt_dec 0.01 p) as [Hgt | _]; [lra |].
    unfold Rdiv. lra.
Qed.

Lemma efficiency_term_capped_witness :
  exists v,
    evaluate_offer optimizer 0.005 offer_120 (upsell_predictor []) 100 = Ok (Fin v) /\
    v <= (100 - 0.005) * conversion_rate offer_120 + 30 * conversion_rate offer_120 * 100 +
         0.5 * model_probability (upsell_predictor []) /\
    (0.005 <= 0.01 ->
     v = (100 - 0.005) * conversion_rate offer_120 + 30 * conversion_rate offer_120 * 100 +
         0.5 * model_probability (upsell_predictor [])) /\
    (0.01 <= 0.005 ->
     v = (100 - 0.005) * conversion_rate offer_120 +
         0.3 * conversion_rate offer_120 * 100 / 0.005 +
         0.5 * model_probability (upsell_predictor [])).
Proof.
  apply (efficiency_term_capped offer_120 (upsell_predictor []) 100 0.005);
    [discriminate | lra | simpl; lra | lra].
Defined.

(** ** The request generators of the test module *)

Lemma steady_rng_unit : unit_draws steady_rng.
Proof. intros n. unfold steady_rng. lra. Qed.

Lemma random_uniform_range (a b : R) (g : rng) :
  unit_draws g -> a <= b ->
  a <= fst (random_uniform a b g) <= b /\
  unit_draws (snd (random_uniform a b g)) /\
  forall j, snd (random_uniform a b g) j = g (1 + j)%nat.
Proof.
  intros Hg Hab. unfold random_uniform. simpl. destruct (Hg 0%nat) as [H0 H1].
  split_ands.
  - nra.
  - nra.
  - intros n. apply Hg.
  - intros j. reflexivity.
Qed.

Lemma generate_retention_offers_from_spec (base_price : R) (n i : nat) (g : rng) :
  base_price > 0 -> unit_draws g ->
  List.length (fst (generate_retention_offers_from base_price i n g)) = n /\
  Forall (fun o => valid_offer o /\
                   0.8 * base_price <= price o <= 1.2 * base_price /\
                   0.1 <= conversion_rate o <= 0.3)
         (fst (generate_retention_offers_from base_price i n g)) /\
  (forall j o, nth_error (fst (generate_retention_offers_from base_price i n g)) j = Some o ->
               offer_name o = ("Retention Offer " ++ str_nat (i + j + 1))%string) /\
  unit_draws (snd (generate_retention_offers_from base_price i n g)) /\
  (forall j, snd (generate_retention_offers_from base_price i n g) j = g (3 * n + j)%nat).
Proof.
  intros Hb. revert i g. induction n as [| n IH]; intros i g Hg.
  - simpl. split_ands; auto.
    intros [| j] o H; discriminate.
  - cbn [generate_retention_offers_from].
    destruct (random_uniform 0.8 1.2 g) as [pf g1] eqn:E1.
    destruct (random_uniform 0.9 1.5 g1) as [vf g2] eqn:E2.
    destruct (random_uniform 0.1 0.3 g2) as [cr g3] eqn:E3.
    assert (H1 := random_uniform_range 0.8 1.2 g Hg ltac:(lra)). rewrite E1 in H1.
    simpl in H1. destruct H1 as (Hpf & Hg1 & Hs1).
    assert (H2 := random_uniform_range 0.9 1.5 g1 Hg1 ltac:(lra)). rewrite E2 in H2.
    simpl in H2. destruct H2 as (Hvf & Hg2 & Hs2).
    assert (H3 := random_uniform_range 0.1 0.3 g2 Hg2 ltac:(lra)). rewrite E3 in H3.
    simpl in H3. destruct H3 as (Hcr & Hg3 & Hs3).
    specialize (IH (S i) g3 Hg3).
    destruct (generate_retention_offers_from base_price (S i) n g3) as [offers g'].
    cbn [fst snd] in IH. destruct IH as (Hlen & Hall & Hname & Hg' & Hshift).
    cbn [fst snd]. split_ands.
    + cbn [List.length]. rewrite Hlen. reflexivity.
    + constructor; [| exact Hall]. unfold valid_offer. cbn [price volume conversion_rate].
      destruct Hpf as [Hpf Hpf']. destruct Hvf as [Hvf _]. destruct Hcr as [Hcr Hcr'].
      assert (base_price * 0.8 <= base_price * pf) by (apply Rmult_le_compat_l; lra).
      assert (base_price * pf <= base_price * 1.2) by (apply Rmult_le_compat_l; lra).
      assert (base_price * 0.9 <= base_price * vf) by (apply Rmult_le_compat_l; lra).
      split_ands; lra.
    + intros [| j] o H; cbn [nth_error] in H.
      * injection H as <-. cbn [offer_name]. rewrite Nat.add_0_r. reflexivity.
      * rewrite (Hname j o H).
        replace (S i + j + 1)%nat with (i + S j + 1)%nat by lia. reflexivity.
    + exact Hg'.
    + intros j. rewrite Hshift, Hs3, Hs2, Hs1. f_equal. lia.
Qed.

Lemma generate_growth_offers_from_spec (base_price : R) (n i : nat) (g : rng) :
  base_price > 0 -> unit_draws g ->
  List.length (fst (generate_growth_offers_from base_price i n g)) = n /\
  Forall (fun o => valid_offer o /\
                   0.7 * base_price <= price o <= base_price /\
                   0.15 <= conversion_rate o <= 0.35)
         (fst (generate_growth_offers_from base_price i n g)) /\
  (forall j o, nth_error (fst (generate_growth_offers_from base_price i n g)) j = Some o ->
               offer_name o = ("Growth Offer " ++ str_nat (i + j + 1))%string) /\
  unit_draws (snd (generate_growth_offers_from base_price i n g)) /\
  (forall j, snd (generate_growth_offers_from base_price i n g) j = g (3 * n + j)%nat).
Proof.
  intros Hb. revert i g. induction n as [| n IH]; intros i g Hg.
  - simpl. split_ands; auto.
    intros [| j] o H; discriminate.
  - cbn [generate_growth_offers_from].
    destruct (random_uniform 0.7 1.0 g) as [pf g1] eqn:E1.
    destruct (random_uniform 1.0 2.0 g1) as [vf g2] eqn:E2.
    destruct (random_uniform 0.15 0.35 g2) as [cr g3] eqn:E3.
    assert (H1 := random_uniform_range 0.7 1.0 g Hg ltac:(lra)). rewrite E1 in H1.
    simpl in H1. destruct H1 as (Hpf & Hg1 & Hs1).
    assert (H2 := random_uniform_range 1.0 2.0 g1 Hg1 ltac:(lra)). rewrite E2 in H2.
    simpl in H2. destruct H2 as (Hvf & Hg2 & Hs2).
    assert (H3 := random_uniform_range 0.15 0.35 g2 Hg2 ltac:(lra)). rewrite E3 in H3.
    simpl in H3. destruct H3 as (Hcr & Hg3 & Hs3).
    specialize (IH (S i) g3 Hg3).
    destruct (generate_growth_offers_from base_price (S i) n g3) as [offers g'].
    cbn [fst snd] in IH. destruct IH as (Hlen & Hall & Hname & Hg' & Hshift).
    cbn [fst snd]. split_ands.
    + cbn [List.length]. rewrite Hlen. reflexivity.
    + constructor; [| exact Hall]. unfold valid_offer. cbn [price volume conversion_rate].
      destruct Hpf as [Hpf Hpf']. destruct Hvf as [Hvf _]. destruct Hcr as [Hcr Hcr'].
      assert (base_price * 0.7 <= base_price * pf) by (apply Rmult_le_compat_l; lra).
      assert (base_price * pf <= base_price * 1.0) by (apply Rmult_le_compat_l; lra).
      assert (base_price * 1.0 <= base_price * vf) by (apply Rmult_le_compat_l; lra).
      split_ands; lra.
    + intros [| j] o H; cbn [nth_error] in H.
      * injection H as <-. cbn [offer_name]. rewrite Nat.add_0_r. reflexivity.
      * rewrite (Hname j o H).
        replace (S i + j + 1)%nat with (i + S j + 1)%nat by lia. reflexivity.
    + exact Hg'.
    + intros j. rewrite Hshift, Hs3, Hs2, Hs1. f_equal. lia.
Qed.

(** X16. [generate_retention_offers] with a positive base price returns
    exactly [n_offers] offers, numbered from 1 in their names, each
    satisfying the field constraints of [Offer], priced from 80% to 120% of
    the base price (so some can reach or exceed a COPCAR equal to the base
    price) and converting at 10% to 30%; it consumes three draws per
    offer. *)
Theorem generate_retention_offers_well_formed (base_price : R) (n_offers : nat) (g : rng) :
  base_price > 0 -> unit_draws g ->
  List.length (fst (generate_retention_offers base_price n_offers g)) = n_offers /\
  (forall o, In o (fst (generate_retention_offers base_price n_offers g)) ->
     valid_offer o /\
     0.8 * base_price <= price o <= 1.2 * base_price /\
     0.1 <= conversion_rate o <= 0.3) /\
  (forall j o, nth_error (fst (generate_retention_offers base_price n_offers g)) j = Some o ->
     offer_name o = ("Retention Offer " ++ str_nat (j + 1))%string) /\
  (forall j, snd (generate_retention_offers base_price n_offers g) j =
             g (3 * n_offers + j)%nat).
Proof.
  intros Hb Hg. unfold generate_retention_offers.
  destruct (generate_retention_offers_from_spec base_price n_offers 0 g Hb Hg)
    as (Hlen & Hall & Hname & _ & Hshift).
  split_ands.
  - exact Hlen.
  - rewrite Forall_forall in Hall. exact Hall.
  - intros j o H. apply Hname in H. exact H.
  - exact Hshift.
Qed.

Lemma generate_retention_offers_well_formed_witness :
  List.length (fst (generate_retention_offers 200 12 steady_rng)) = 12%nat /\
  (forall o, In o (fst (generate_retention_offers 200 12 steady_rng)) ->
     valid_offer o /\
     0.8 * 200 <= price o <= 1.2 * 200 /\
     0.1 <= conversion_rate o <= 0.3) /\
  (forall j o, nth_error (fst (generate_retention_offers 200 12 steady_rng)) j = Some o ->
     offer_name o = ("Retention Offer " ++ str_nat (j + 1))%string) /\
  (forall j, snd (generate_retention_offers 200 12 steady_rng) j =
             steady_rng (3 * 12 + j)%nat).
Proof.
  apply (generate_retention_offers_well_formed 200 12 steady_rng);
    [lra | exact steady_rng_unit].
Defined.

(** X17. [generate_growth_offers] with a positive base price returns
    exactly [n_offers] offers, numbered from 1 in their names, each
    satisfying the field constraints of [Offer] and priced from 70% of the
    base price up to the base price, never above it, converting at 15% to
    35%; it consumes three draws per offer. *)
Theorem generate_growth_offers_well_formed (base_price : R) (n_offers : nat) (g : rng) :
  base_price > 0 -> unit_draws g ->
  List.length (fst (generate_growth_offers base_price n_offers g)) = n_offers /\
  (forall o, In o (fst (generate_growth_offers base_price n_offers g)) ->
     valid_offer o /\
     0.7 * base_price <= price o <= base_price /\
     0.15 <= conversion_rate o <= 0.35) /\
  (forall j o, nth_error (fst (generate_growth_offers base_price n_offers g)) j = Some o ->
     offer_name o = ("Growth Offer " ++ str_nat (j + 1))%string) /\
  (forall j, snd (generate_growth_offers base_price n_offers g) j =
             g (3 * n_offers + j)%nat).
Proof.
  intros Hb Hg. unfold generate_growth_offers.
  destruct (generate_growth_offers_from_spec base_price n_offers 0 g Hb Hg)
    as (Hlen & Hall & Hname & _ & Hshift).
  split_ands.
  - exact Hlen.
  - rewrite Forall_forall in Hall. exact Hall.
  - intros j o H. apply Hname in H. exact H.
  - exact Hshift.
Qed.

Lemma generate_growth_offers_well_formed_witness :
  List.length (fst (generate_growth_offers 180 10 steady_rng)) = 10%nat /\
  (forall o, In o (fst (generate_growth_offers 180 10 steady_rng)) ->
     valid_offer o /\
     0.7 * 180 <= price o <= 180 /\
     0.15 <= conversion_rate o <= 0.35) /\
  (forall j o, nth_error (fst (generate_growth_offers 180 10 steady_rng)) j = Some o ->
     offer_name o = ("Growth Offer " ++ str_nat (j + 1))%string) /\
  (forall j, snd (generate_growth_offers 180 10 steady_rng) j =
             steady_rng (3 * 10 + j)%nat).
Proof.
  apply (generate_growth_offers_well_formed 180 10 steady_rng);
    [lra | exact steady_rng_unit].
Defined.

Lemma high_churn_request_eq (g : rng) :
  high_churn_request g =
  ({| customer_id := "CUST001"; copcar := 200.0;
      models :=
        [ {| model_name := "churn_predictor"; model_probability := 0.8;
             model_category := RETENTION;
             available_offers := fst (generate_retention_offers 200.0 12 g) |};
          {| model_name := "upsell_predictor"; model_probability := 0.4;
             model_category := GROWTH;
             available_offers :=
               fst (generate_growth_offers 180.0 10
                      (snd (generate_retention_offers 200.0 12 g))) |} ] |},
   snd (generate_growth_offers 180.0 10 (snd (generate_retention_offers 200.0 12 g)))).
Proof.
  unfold high_churn_request.
  destruct (generate_retention_offers 200.0 12 g) as [ro g1]. cbn [fst snd].
  destruct (generate_growth_offers 180.0 10 g1) as [go g2]. reflexivity.
Qed.

Lemma growth_opportunity_request_eq (g : rng) :
  growth_opportunity_request g =
  ({| customer_id := "CUST002"; copcar := 150.0;
      models :=
        [ {| model_name := "churn_predictor"; model_probability := 0.2;
             model_category := RETENTION;
             available_offers := fst (generate_retention_offers 150.0 10 g) |};
          {| model_name := "upsell_predictor"; model_probability := 0.7;
             model_category := GROWTH;
             available_offers :=
               fst (generate_growth_offers 140.0 15
                      (snd (generate_retention_offers 150.0 10 g))) |} ] |},
   snd (generate_growth_offers 140.0 15 (snd (generate_retention_offers 150.0 10 g)))).
Proof.
  unfold growth_opportunity_request.
  destruct (generate_retention_offers 150.0 10 g) as [ro g1]. cbn [fst snd].
  destruct (generate_growth_offers 140.0 15 g1) as [go g2]. reflexivity.
Qed.

(** Shape shared by the two test requests: a retention model whose offers
    are generated around COPCAR and a growth model whose offers are
    generated around a base price below COPCAR. *)
Lemma generated_request_well_formed
    (g0 : rng) (cid : string) (cc gb pr pg : R) (nr ng : nat) :
  unit_draws g0 -> cc > 0 -> 0 < gb < cc -> 0 <= pr <= 1 -> 0 <= pg <= 1 ->
  let ro := generate_retention_offers cc nr g0 in
  let go := generate_growth_offers gb ng (snd ro) in
  let req :=
    {| customer_id := cid; copcar := cc;
       models :=
         [ {| model_name := "churn_predictor"; model_probability := pr;
              model_category := RETENTION; available_offers := fst ro |};
           {| model_name := "upsell_predictor"; model_probability := pg;
              model_category := GROWTH; available_offers := fst go |} ] |} in
  valid_request req /\
  List.length (candidates req) = (nr + ng)%nat /\
  unit_draws (snd go) /\
  forall m o, In (m, o) (candidates req) ->
    (model_category m = GROWTH -> price o < cc) /\ price o <= 1.2 * cc.
Proof.
  intros Hg0 Hcc Hgb Hpr Hpg ro go req.
  pose proof (generate_retention_offers_from_spec cc nr 0 g0 Hcc Hg0)
    as (Hlr & Har & _ & Hgr & _).
  fold (generate_retention_offers cc nr g0) in Hlr, Har, Hgr. fold ro in Hlr, Har, Hgr.
  assert (Hgb' : gb > 0) by lra.
  pose proof (generate_growth_offers_from_spec gb ng 0 (snd ro) Hgb' Hgr)
    as (Hlg & Hag & _ & Hgg & _).
  fold (generate_growth_offers gb ng (snd ro)) in Hlg, Hag, Hgg. fold go in Hlg, Hag, Hgg.
  rewrite Forall_forall in Har, Hag.
  split_ands.
  - split; [exact Hcc |]. unfold req. cbn [models].
    constructor; [| constructor; [| constructor]];
      unfold valid_model; cbn [model_probability available_offers];
      (split; [lra |]); (split; [lra |]);
      rewrite Forall_forall; intros o Ho; [apply Har | apply Hag]; exact Ho.
  - unfold candidates, req. cbn [models flat_map available_offers].
    rewrite app_nil_r, length_app, !length_map, Hlr, Hlg. reflexivity.
  - exact Hgg.
  - intros m o Hin. apply in_candidates in Hin. destruct Hin as [Hm Ho].
    unfold req in Hm. cbn [models] in Hm.
    destruct Hm as [<- | [<- | []]]; cbn [available_offers model_category] in *.
    + destruct (Har o Ho) as (_ & Hprice & _). split; [discriminate | lra].
    + destruct (Hag o Ho) as (_ & Hprice & _). split; [intros _; lra | lra].
Qed.

(** X18. Whatever the random draws, both requests that [test_optimization]
    posts satisfy the field constraints of the request model; the first
    has 22 candidates and the second 25; each of their growth offers is
    priced strictly below COPCAR (the growth base price is), and no offer
    is priced above 120% of COPCAR. *)
Theorem test_requests_well_formed (g : rng) :
  unit_draws g ->
  valid_request (fst (high_churn_request g)) /\
  valid_request (fst (growth_opportunity_request (snd (high_churn_request g)))) /\
  List.length (candidates (fst (high_churn_request g))) = 22%nat /\
  List.length (candidates (fst (growth_opportunity_request (snd (high_churn_request g)))))
    = 25%nat /\
  (forall m o,
     In (m, o) (candidates (fst (high_churn_request g))) ->
     (model_category m = GROWTH -> price o < copcar (fst (high_churn_request g))) /\
     price o <= 1.2 * copcar (fst (high_churn_request g))) /\
  (forall m o,
     In (m, o)
        (candidates (fst (growth_opportunity_request (snd (high_churn_request g))))) ->
     (model_category m = GROWTH ->
      price o < copcar (fst (growth_opportunity_request (snd (high_churn_request g))))) /\
     price o <= 1.2 * copcar (fst (growth_opportunity_request (snd (high_churn_request g))))).
Proof.
  intros Hg.
  pose proof (generated_request_well_formed g "CUST001" 200.0 180.0 0.8 0.4 12 10 Hg
                ltac:(lra) ltac:(lra) ltac:(lra) ltac:(lra)) as H1.
  cbv zeta in H1. destruct H1 as (Hv1 & Hl1 & Hg1 & Hp1).
  pose proof (generated_request_well_formed
                (snd (generate_growth_offers 180.0 10
                        (snd (generate_retention_offers 200.0 12 g))))
                "CUST002" 150.0 140.0 0.2 0.7 10 15 Hg1
                ltac:(lra) ltac:(lra) ltac:(lra) ltac:(lra)) as H2.
  cbv zeta in H2. destruct H2 as (Hv2 & Hl2 & _ & Hp2).
  rewrite high_churn_request_eq. cbn [fst snd].
  rewrite growth_opportunity_request_eq. cbn [fst snd copcar].
  split_ands; assumption.
Qed.

Lemma test_requests_well_formed_witness :
  valid_request (fst (high_churn_request steady_rng)) /\
  List.length (candidates (fst (high_churn_request steady_rng))) = 22%nat.
Proof.
  destruct (test_requests_well_formed steady_rng steady_rng_unit)
    as (Hv & _ & Hl & _).
  split; [exact Hv | exact Hl].
Defined.
